(** * PSLab firmware: logic analyzer and oscilloscope drivers

    A shallow embedding of [src/instruments/logic_analyzer.c] and of the
    trigger path of [src/instruments/oscilloscope.c], with the properties
    the specification states about them.

    The firmware targets a 16-bit Microchip core (XC16 tool chain: [xc.h]
    in [pins.h], the 16-bit registers [T5CON], [ICxCON1], [DMAxCON], the
    [far] attribute of [BUFFER], data pointers cast to [uint16_t]): [int]
    and [unsigned int] are 16 bits wide, [uint16_t] is [unsigned int], and
    an [uint8_t] operand is promoted to [int].  Fixed-width integers are
    values of [Z]; every wrap-around is written out with the functions of
    [Section Integers].

    Calls into the register-level drivers (IC, DMA, TMR, CN, ADC, PINS) and
    into the UART are recorded, in program order, in a trace of [Call]s:
    the drivers themselves are not part of the instrument code. *)

From Stdlib Require Import ZArith Bool List Lia.
From stdpp Require Import base numbers list.
From Equations Require Import Equations.
Import ListNotations.

Local Open Scope Z_scope.

(** ** Fixed-width integers *)

Section Integers.

Definition uint8_t (z : Z) : Z := z mod 2 ^ 8.
Definition uint16_t (z : Z) : Z := z mod 2 ^ 16.
Definition uint32_t (z : Z) : Z := z mod 2 ^ 32.

(** Conversion to a signed type keeps the low bits (two's complement). *)
Definition int8_t (z : Z) : Z := (z + 2 ^ 7) mod 2 ^ 8 - 2 ^ 7.
Definition int16_t (z : Z) : Z := (z + 2 ^ 15) mod 2 ^ 16 - 2 ^ 15.

(** [int] and [unsigned int] of the target. *)
Definition int (z : Z) : Z := int16_t z.
Definition unsigned_int (z : Z) : Z := uint16_t z.

Definition UINT16_MAX : Z := 65535.

End Integers.

(** ** Enumerations *)

(** [types.h] is not among the sources.  [Edge] and [Channel] values arrive
    as [(int8_t)UART1_Read()], so they are integers here; the enumerators
    are numbered as [ICx_start_fast] needs them ([icm = edge + 1], with the
    capture modes 1 = every edge, 2 = falling, 3 = rising) with the NONE
    members at -1. *)
Abbreviation Edge := Z (only parsing).
Definition EDGE_NONE : Edge := -1.
Definition EDGE_ANY : Edge := 0.
Definition EDGE_FALLING : Edge := 1.
Definition EDGE_RISING : Edge := 2.

Abbreviation Channel := Z (only parsing).
Definition CHANNEL_NONE : Channel := -1.
Definition CHANNEL_1 : Channel := 0.
Definition CHANNEL_2 : Channel := 1.
Definition CHANNEL_3 : Channel := 2.
Definition CHANNEL_4 : Channel := 3.
Definition CHANNEL_NUMEL : Z := 4.

(** [helpers/buffer.h] is not among the sources either; the capacity is the
    one [logic_analyzer.c] documents: "Up to 10k timestamps can be captured,
    across all four channels". *)
Definition BUFFER_SIZE : Z := 10000.

(** [commands.h]: the three responses the instruments return. *)
Inductive response_t : Type := SUCCESS | ARGUMENT_ERROR | FAILED.

(** [registers_ng/tmr.h] *)
Inductive TMR_Timer : Type :=
  TMR_TIMER_1 | TMR_TIMER_2 | TMR_TIMER_3 | TMR_TIMER_4 | TMR_TIMER_5
| TMR_TIMER_NUMEL.

(** [TMR_Prescaler] is incremented with [++] in the oscilloscope, so it is
    kept as the integer of the enumerator. *)
Abbreviation TMR_Prescaler := Z (only parsing).
Definition TMR_PRESCALER_1 : TMR_Prescaler := 0.
Definition TMR_PRESCALER_8 : TMR_Prescaler := 1.
Definition TMR_PRESCALER_64 : TMR_Prescaler := 2.
Definition TMR_PRESCALER_256 : TMR_Prescaler := 3.

(** [registers_ng/ic.h] *)
Inductive IC_Timer : Type := IC_TIMER_TMR5 | IC_TIMER_PERIPHERAL.

(** [registers_ng/dma.h] *)
Inductive DMA_Source : Type := DMA_SOURCE_ADC | DMA_SOURCE_IC.

(** [registers_ng/adc.h] *)
Inductive ADC_Resolution : Type := ADC_RESOLUTION_10BIT | ADC_RESOLUTION_12BIT.

(** The functions that are handed to the drivers as interrupt callbacks. *)
Inductive Callback : Type :=
  cb_LA_trigger | cb_LA_cleanup_callback | cb_OSC_trigger.

(** ** Driver calls *)

Inductive Call : Type :=
(* ic.h *)
| IC_reset (channel : Channel)
| IC_setup (channel : Channel) (timer : IC_Timer)
| IC_start (channel : Channel) (edge : Edge)
| ICx_start_fast (x : Z) (edge : Edge)
| ICxBUF (x : Z)
| IC_interrupt_enable (channel : Channel) (callback : Callback)
| IC_interrupt_disable (channel : Channel)
(* dma.h *)
| DMA_reset (channel : Channel)
| DMA_setup (channel : Channel) (count address : Z) (source : DMA_Source)
| DMAx_start_fast (x : Z)
| DMA_interrupt_enable (channel : Channel) (callback : Callback)
| DMA_get_progress (channel : Channel)
(* tmr.h *)
| TMR_reset (timer : TMR_Timer)
| TMR5_start_fast
| TMR_set_period (timer : TMR_Timer) (period : Z)
| TMR_set_prescaler (timer : TMR_Timer) (prescaler : TMR_Prescaler)
(* cn.h *)
| CN_reset
| CN_interrupt_enable (channel : Channel) (callback : Callback)
(* adc.h *)
| ADC_reset
| ADC_setup (num_channels : Z) (resolution : ADC_Resolution)
| ADC_start
| ADC_enable_interrupt (callback : Callback)
| ADC_disable_interrupt
(* pins.h, buffer.h *)
| PINS_get_la_states
| BUFFER_set (start val size : Z)
(* uart.h *)
| UART1_Write (byte : Z)
| UART1_WriteInt (word : Z)
| UART1_write_u32 (dword : Z)
| UART1_write_u32_scaling (channel : Channel)
| UART1_write_u32_offset (channel : Channel)
| UART1_write_str.

Global Instance TMR_Timer_eq_dec : EqDecision TMR_Timer.
Proof. solve_decision. Defined.
Global Instance IC_Timer_eq_dec : EqDecision IC_Timer.
Proof. solve_decision. Defined.
Global Instance DMA_Source_eq_dec : EqDecision DMA_Source.
Proof. solve_decision. Defined.
Global Instance ADC_Resolution_eq_dec : EqDecision ADC_Resolution.
Proof. solve_decision. Defined.
Global Instance Callback_eq_dec : EqDecision Callback.
Proof. solve_decision. Defined.
Global Instance Call_eq_dec : EqDecision Call.
Proof. solve_decision. Defined.

(** What the hardware holds when it is read.  [BUFFER] is the address of
    the sample buffer, [mem] the 16-bit word at a byte address, [FCY] the
    instruction clock and [fn_trigger] the address of the oscilloscope's
    [trigger] function (the last two are constants of the build). *)
Record Hardware : Type := {
  BUFFER : Z;
  FCY : Z;
  fn_trigger : Z;
  mem : Z → Z;
  PORTB : Z;
  DMA_progress : Channel → Z;
  ADC_BUFFERS : Channel → Z;
}.

(** Pointer arithmetic on [uint16_t *]. *)
Definition ptr_add (p k : Z) : Z := p + 2 * k.
Definition NULL : Z := 0.

(** ** A state monad with a trace of driver calls *)

Definition M (S A : Type) : Type := S → A * S * list Call.

Global Instance M_ret {S} : MRet (M S) := λ A a s, (a, s, []).
Definition result {S A} (r : A * S * list Call) : A := r.1.1.
Definition state_of {S A} (r : A * S * list Call) : S := r.1.2.
Definition calls {S A} (r : A * S * list Call) : list Call := r.2.

Global Instance M_bind {S} : MBind (M S) := λ A B k m s,
  let '(a, s1, t1) := m s in
  let '(b, s2, t2) := k a s1 in
  (b, s2, t1 ++ t2).

Definition get {S} : M S S := λ s, (s, s, []).
Definition modify {S} (f : S → S) : M S unit := λ s, (tt, f s, []).
Definition call {S} (c : Call) : M S unit := λ s, (tt, s, [c]).

(** [for (i = 0; i < n; ++i) body(i)], the counter running from [i]. *)
Fixpoint for_loop {S} (n : nat) (i : Z) (body : Z → M S unit) : M S unit :=
  match n with
  | O => mret tt
  | S n' => body i;; for_loop n' (i + 1) body
  end.

(** Arrays of [CHANNEL_NUMEL] elements.  An index outside the array is
    undefined behaviour in C; here a read gives 0 and a write is dropped. *)
Definition array_get (a : list Z) (i : Z) : Z :=
  if (0 <=? i) then default 0 (a !! Z.to_nat i) else 0.
Definition array_set (a : list Z) (i : Z) (v : Z) : list Z :=
  if (0 <=? i) then <[Z.to_nat i := v]> a else a.

(** ** [instruments/logic_analyzer.c] *)

Module LA.

(** [struct LogicAnalyzerState] *)
Record LogicAnalyzerState : Type := {
  locked : bool;
  configured_channels : Z;        (* uint8_t *)
  active_channels : Z;            (* uint8_t *)
  capture_edge : Edge;
  trigger_edge : Edge;
  initial_states : Z;             (* uint8_t *)
  events_per_channel : Z;         (* uint16_t *)
  initial_addresses : list Z;     (* uint16_t *[CHANNEL_NUMEL] *)
  final_progress : list Z;        (* uint16_t [CHANNEL_NUMEL] *)
}.

Definition set_locked (v : bool) (s : LogicAnalyzerState) :=
  {| locked := v; configured_channels := configured_channels s;
     active_channels := active_channels s; capture_edge := capture_edge s;
     trigger_edge := trigger_edge s; initial_states := initial_states s;
     events_per_channel := events_per_channel s;
     initial_addresses := initial_addresses s;
     final_progress := final_progress s |}.
Definition set_configured_channels (v : Z) (s : LogicAnalyzerState) :=
  {| locked := locked s; configured_channels := v;
     active_channels := active_channels s; capture_edge := capture_edge s;
     trigger_edge := trigger_edge s; initial_states := initial_states s;
     events_per_channel := events_per_channel s;
     initial_addresses := initial_addresses s;
     final_progress := final_progress s |}.
Definition set_active_channels (v : Z) (s : LogicAnalyzerState) :=
  {| locked := locked s; configured_channels := configured_channels s;
     active_channels := v; capture_edge := capture_edge s;
     trigger_edge := trigger_edge s; initial_states := initial_states s;
     events_per_channel := events_per_channel s;
     initial_addresses := initial_addresses s;
     final_progress := final_progress s |}.
Definition set_capture_edge (v : Edge) (s : LogicAnalyzerState) :=
  {| locked := locked s; configured_channels := configured_channels s;
     active_channels := active_channels s; capture_edge := v;
     trigger_edge := trigger_edge s; initial_states := initial_states s;
     events_per_channel := events_per_channel s;
     initial_addresses := initial_addresses s;
     final_progress := final_progress s |}.
Definition set_trigger_edge (v : Edge) (s : LogicAnalyzerState) :=
  {| locked := locked s; configured_channels := configured_channels s;
     active_channels := active_channels s; capture_edge := capture_edge s;
     trigger_edge := v; initial_states := initial_states s;
     events_per_channel := events_per_channel s;
     initial_addresses := initial_addresses s;
     final_progress := final_progress s |}.
Definition set_initial_states (v : Z) (s : LogicAnalyzerState) :=
  {| locked := locked s; configured_channels := configured_channels s;
     active_channels := active_channels s; capture_edge := capture_edge s;
     trigger_edge := trigger_edge s; initial_states := v;
     events_per_channel := events_per_channel s;
     initial_addresses := initial_addresses s;
     final_progress := final_progress s |}.
Definition set_events_per_channel (v : Z) (s : LogicAnalyzerState) :=
  {| locked := locked s; configured_channels := configured_channels s;
     active_channels := active_channels s; capture_edge := capture_edge s;
     trigger_edge := trigger_edge s; initial_states := initial_states s;
     events_per_channel := v;
     initial_addresses := initial_addresses s;
     final_progress := final_progress s |}.
Definition set_initial_address (i v : Z) (s : LogicAnalyzerState) :=
  {| locked := locked s; configured_channels := configured_channels s;
     active_channels := active_channels s; capture_edge := capture_edge s;
     trigger_edge := trigger_edge s; initial_states := initial_states s;
     events_per_channel := events_per_channel s;
     initial_addresses := array_set (initial_addresses s) i v;
     final_progress := final_progress s |}.
Definition set_final_progress (i v : Z) (s : LogicAnalyzerState) :=
  {| locked := locked s; configured_channels := configured_channels s;
     active_channels := active_channels s; capture_edge := capture_edge s;
     trigger_edge := trigger_edge s; initial_states := initial_states s;
     events_per_channel := events_per_channel s;
     initial_addresses := initial_addresses s;
     final_progress := array_set (final_progress s) i v |}.

Definition g_TIMER : TMR_Timer := TMR_TIMER_5.

(** The initial value of [g_state] (and [g_STATE_DEFAULT]). *)
Definition g_STATE_DEFAULT : LogicAnalyzerState :=
  {| locked := false; configured_channels := 0; active_channels := 0;
     capture_edge := EDGE_NONE; trigger_edge := EDGE_NONE;
     initial_states := 0; events_per_channel := 0;
     initial_addresses := [NULL; NULL; NULL; NULL];
     final_progress := [0; 0; 0; 0] |}.

Abbreviation LAM := (M LogicAnalyzerState) (only parsing).

(** [pins.h]: [(PORTB >> LA1) & 0xF] with [LA1 = 10]. *)
Definition PINS_la_states (hw : Hardware) : Z :=
  Z.land (Z.shiftr (PORTB hw) 10) 15.

(** One arm of the [switch] in [trigger]; control falls through from
    [case x] into [case x - 1]. *)
Definition trigger_case (x : Z) (capture_edge : Edge) : LAM unit :=
  call (ICx_start_fast x capture_edge);;
  call (ICxBUF x);;
  call (DMAx_start_fast (x - 1)).

(** Start TMR and IC: the fire sequence, called from [arm] or from the
    trigger interrupt. *)
Definition trigger (hw : Hardware) (channel : Channel) : LAM unit :=
  s ← get;
  let capture_edge := capture_edge s in
  match configured_channels s with
  | 4 => trigger_case 4 capture_edge;; trigger_case 3 capture_edge;;
         trigger_case 2 capture_edge;; trigger_case 1 capture_edge
  | 3 => trigger_case 3 capture_edge;;
         trigger_case 2 capture_edge;; trigger_case 1 capture_edge
  | 2 => trigger_case 2 capture_edge;; trigger_case 1 capture_edge
  | 1 => trigger_case 1 capture_edge
  | _ => mret tt
  end;;
  call TMR5_start_fast;;
  call PINS_get_la_states;;
  modify (set_initial_states (PINS_la_states hw));;
  (* End of timing critical section. *)
  s ← get;
  modify (set_active_channels (configured_channels s));;
  call (TMR_set_period g_TIMER 0);;
  s ← get;
  let trigger_edge := trigger_edge s in
  if (trigger_edge =? EDGE_RISING) || (trigger_edge =? EDGE_FALLING) then
    call (IC_interrupt_disable channel)
  else if trigger_edge =? EDGE_ANY then
    call CN_reset
  else mret tt.

(** Called by the DMA interrupt of [channel] when the requested number of
    timestamps has been copied. *)
Definition cleanup_callback (channel : Channel) : LAM unit :=
  s ← get;
  modify (set_final_progress channel (events_per_channel s));;
  call (DMA_reset channel);;
  call (IC_reset channel);;
  s ← get;
  let active_channels := uint8_t (active_channels s - 1) in
  modify (set_active_channels active_channels);;
  if active_channels =? 0 then
    call (TMR_reset g_TIMER);;
    modify (set_locked false)
  else mret tt.

Definition timer2ictsel (timer : TMR_Timer) : IC_Timer :=
  match timer with
  | TMR_TIMER_5 => IC_TIMER_TMR5
  | _ => IC_TIMER_PERIPHERAL
  end.

(** [BUFFER + i * BUFFER_SIZE / num_channels]: the product and the
    quotient are computed in [int] (an overflowing product is undefined in
    C and wraps here), the sum is pointer arithmetic. *)
Definition channel_address (hw : Hardware) (i num_channels : Z) : Z :=
  ptr_add (BUFFER hw) (Z.quot (int (i * BUFFER_SIZE)) num_channels).

Definition setup (hw : Hardware) (num_channels events : Z) (edge : Edge)
  : LAM unit :=
  modify (set_locked true);;
  modify (set_configured_channels num_channels);;
  modify (set_capture_edge edge);;
  modify (set_events_per_channel events);;
  for_loop (Z.to_nat num_channels) 0 (λ i,
    call (IC_reset i);;
    call (DMA_reset i);;
    let address := channel_address hw i num_channels in
    call (DMA_setup i events address DMA_SOURCE_IC);;
    modify (set_initial_address i address);;
    call (BUFFER_set address 0 events);;
    call (DMA_interrupt_enable i cb_LA_cleanup_callback);;
    call (IC_setup i (timer2ictsel g_TIMER))).

Definition arm (hw : Hardware) (channel : Channel) (edge : Edge) : LAM unit :=
  call (TMR_set_period g_TIMER 1);;
  modify (set_trigger_edge edge);;
  if (channel =? CHANNEL_NONE) || (edge =? EDGE_NONE) then
    trigger hw CHANNEL_NONE
  else if edge =? EDGE_ANY then
    call CN_reset;;
    call (CN_interrupt_enable channel cb_LA_trigger)
  else
    call (IC_start channel edge);;
    call (IC_interrupt_enable channel cb_LA_trigger).

(** The values the five UART reads at the top of [LA_capture] return, in
    the order they are read: [UART1_Read] gives a byte, [UART1_ReadInt]
    a 16-bit word. *)
Record CaptureRequest : Type := {
  rx_num_channels : Z;
  rx_events : Z;
  rx_edge : Z;
  rx_trigger_pin : Z;
  rx_trigger_edge : Z;
}.

Definition LA_capture (hw : Hardware) (rx : CaptureRequest)
  : LAM response_t :=
  let num_channels := uint8_t (rx_num_channels rx) in
  let events := uint16_t (rx_events rx) in
  let edge := int8_t (rx_edge rx) in
  let trigger_pin := int8_t (rx_trigger_pin rx) in
  let trigger_edge := int8_t (rx_trigger_edge rx) in
  s ← get;
  if locked s then mret FAILED
  else if num_channels =? 0 then mret ARGUMENT_ERROR
  else if num_channels >? CHANNEL_NUMEL then mret ARGUMENT_ERROR
  else if unsigned_int (events * num_channels) >? BUFFER_SIZE then
    mret ARGUMENT_ERROR
  else if edge =? EDGE_NONE then mret ARGUMENT_ERROR
  else
    setup hw num_channels events edge;;
    arm hw trigger_pin trigger_edge;;
    mret SUCCESS.

Definition LA_stop (hw : Hardware) : LAM response_t :=
  s ← get;
  if negb (locked s) then
    (* Logic analyzer is already stopped. *)
    mret SUCCESS
  else
    call CN_reset;;
    call (TMR_reset g_TIMER);;
    for_loop (Z.to_nat CHANNEL_NUMEL) 0 (λ i,
      call (IC_reset i);;
      call (DMA_get_progress i);;
      modify (set_final_progress i (DMA_progress hw i));;
      call (DMA_reset i));;
    modify (set_locked false);;
    mret SUCCESS.

Definition LA_get_states (hw : Hardware) : LAM response_t :=
  call PINS_get_la_states;;
  call (UART1_Write (PINS_la_states hw));;
  mret SUCCESS.

Definition LA_get_progress (hw : Hardware) : LAM response_t :=
  s ← get;
  let channels := configured_channels s in
  call (UART1_Write channels);;
  let done := negb (locked s) in
  call (UART1_Write (Z.b2z done));;
  for_loop (Z.to_nat channels) 0 (λ i,
    (* If capture is complete, DMA has already been released. *)
    if done then
      s ← get;
      call (UART1_WriteInt (array_get (final_progress s) i))
    else
      call (DMA_get_progress i);;
      call (UART1_WriteInt (DMA_progress hw i)));;
  mret SUCCESS.

(** The inner loop of [LA_get_timestamps]: [n] iterations remain, [j] is
    the loop counter and [previous] the last raw timestamp. *)
Fixpoint send_timedeltas (hw : Hardware) (n : nat) (j address previous : Z)
  : LAM unit :=
  match n with
  | O => mret tt
  | S n' =>
      let timestamp := mem hw (ptr_add address j) in
      let timedelta := uint16_t (timestamp - previous) in
      call (UART1_WriteInt timedelta);;
      send_timedeltas hw n' (j + 1) address timestamp
  end.

Definition LA_get_timestamps (hw : Hardware) : LAM response_t :=
  (* Send initial pin states. *)
  s ← get;
  call (UART1_Write (initial_states s));;
  let prescaler := 1 in
  (* Send scaling factor to convert timestamps to seconds. *)
  let scaling := uint32_t (FCY hw / prescaler) in
  call (UART1_write_u32 scaling);;
  (* Send number of configured channels. *)
  let channels := configured_channels s in
  call (UART1_Write channels);;
  for_loop (Z.to_nat channels) 0 (λ i,
    s ← get;
    (* Send number of captured events on channel. *)
    let events := array_get (final_progress s) i in
    call (UART1_WriteInt events);;
    (* Send event timestamp deltas. *)
    let address := array_get (initial_addresses s) i in
    send_timedeltas hw (Z.to_nat events) 0 address 0);;
  mret SUCCESS.

End LA.

(** ** [instruments/oscilloscope.c] *)

Module OSC.

(** [struct OscilloscopeState] *)
Record OscilloscopeState : Type := {
  num_channels : Z;               (* uint8_t *)
  ch0map : Z;                     (* ADC_Channel0Input *)
  resolution : Z;                 (* uint16_t *)
  gains : list Z;                 (* enum Gain [CHANNEL_NUMEL] *)
}.

(** [struct TriggerState] *)
Record TriggerState : Type := {
  channel : Channel;
  level : Z;                      (* uint16_t *)
  waiting : Z;                    (* uint16_t *)
  timeout : Z;                    (* uint16_t *)
  ready : bool;
  polarity : bool;
}.

(** The two file-scope objects [g_state] and [g_trigger_state]. *)
Record Globals : Type := {
  g_state : OscilloscopeState;
  g_trigger_state : TriggerState;
}.

Definition set_gains (v : list Z) (s : OscilloscopeState) :=
  {| num_channels := num_channels s; ch0map := ch0map s;
     resolution := resolution s; gains := v |}.

Definition set_channel (v : Channel) (ts : TriggerState) :=
  {| channel := v; level := level ts; waiting := waiting ts;
     timeout := timeout ts; ready := ready ts; polarity := polarity ts |}.
Definition set_level (v : Z) (ts : TriggerState) :=
  {| channel := channel ts; level := v; waiting := waiting ts;
     timeout := timeout ts; ready := ready ts; polarity := polarity ts |}.
Definition set_waiting (v : Z) (ts : TriggerState) :=
  {| channel := channel ts; level := level ts; waiting := v;
     timeout := timeout ts; ready := ready ts; polarity := polarity ts |}.
Definition set_timeout (v : Z) (ts : TriggerState) :=
  {| channel := channel ts; level := level ts; waiting := waiting ts;
     timeout := v; ready := ready ts; polarity := polarity ts |}.
Definition set_ready (v : bool) (ts : TriggerState) :=
  {| channel := channel ts; level := level ts; waiting := waiting ts;
     timeout := timeout ts; ready := v; polarity := polarity ts |}.
Definition set_polarity (v : bool) (ts : TriggerState) :=
  {| channel := channel ts; level := level ts; waiting := waiting ts;
     timeout := timeout ts; ready := ready ts; polarity := v |}.

Definition on_state (f : OscilloscopeState → OscilloscopeState)
  (g : Globals) : Globals :=
  {| g_state := f (g_state g); g_trigger_state := g_trigger_state g |}.
Definition on_trigger_state (f : TriggerState → TriggerState)
  (g : Globals) : Globals :=
  {| g_state := g_state g; g_trigger_state := f (g_trigger_state g) |}.

Abbreviation OM := (M Globals) (only parsing).

Definition g_TIMER : TMR_Timer := TMR_TIMER_5.

(** Floating-point arithmetic is not evaluated.  A [float] argument is
    represented by the values of the expressions it occurs in. *)

(** [float timegap] of [setup]: [timegap >= min_12bit_timegap] and
    [(uint32_t)(timegap * FCY)]. *)
Record Timegap : Type := {
  timegap_slow : bool;
  timegap_ticks : Z;
}.

(** [float trigger_voltage] of [arm]: for the trigger channel, its gain
    and the resolution, the value of
    [(trigger_voltage - offset) / range * resolution]
    as it is converted to [int16_t]. *)
Definition Voltage : Type := Channel → Z → Z → Z.

(** [while (delay > UINT16_MAX) { ++prescaler; delay /= 8; }] on the
    [uint32_t delay]; the result is the pair of both variables. *)
Equations? scale_delay (prescaler delay : Z) : Z * Z
  by wf (Z.to_nat delay) lt :=
  scale_delay prescaler delay with Z_gt_dec delay UINT16_MAX := {
    | left _ => scale_delay (prescaler + 1) (delay / 8)
    | right _ => (prescaler, delay) }.
Proof.
  unfold UINT16_MAX in *.
  assert (delay / 8 < delay) by (apply Z.div_lt; lia).
  assert (0 <= delay / 8) by (apply Z.div_pos; lia).
  lia.
Qed.

Definition setup (hw : Hardware) (num_channels samples : Z)
  (timegap : Timegap) (ch1_gain ch2_gain : Z) : OM unit :=
  modify (on_state (λ s, set_gains (array_set (gains s) CHANNEL_1 ch1_gain) s));;
  modify (on_state (λ s, set_gains (array_set (gains s) CHANNEL_2 ch2_gain) s));;
  modify (on_state (λ s, set_gains (array_set (gains s) CHANNEL_3 1) s));;
  modify (on_state (λ s, set_gains (array_set (gains s) CHANNEL_4 1) s));;
  let slow_sampling := timegap_slow timegap in
  let single_channel := num_channels =? 1 in
  let use_12bit := slow_sampling && single_channel in
  call ADC_reset;;
  call (ADC_setup num_channels
          (if use_12bit then ADC_RESOLUTION_12BIT else ADC_RESOLUTION_10BIT));;
  call ADC_start;;
  let prescaler := TMR_PRESCALER_1 in
  let delay := uint32_t (timegap_ticks timegap) in
  let '(prescaler, delay) := scale_delay prescaler delay in
  call (TMR_reset g_TIMER);;
  call (TMR_set_prescaler g_TIMER prescaler);;
  call (TMR_set_period g_TIMER (uint16_t delay));;
  let resolution := uint16_t (Z.shiftl 1 (if use_12bit then 12 else 10)) in
  for_loop (Z.to_nat num_channels) 0 (λ i,
    call (DMA_reset i);;
    let address :=
      ptr_add (BUFFER hw) (Z.quot (int (i * BUFFER_SIZE)) num_channels) in
    call (DMA_setup i samples address DMA_SOURCE_ADC);;
    call (UART1_write_u32_scaling i);;
    call (UART1_write_u32_offset i);;
    call UART1_write_str).

(** [min] and [max] are not defined in the sources; [clamp] takes and
    returns [int32_t]. *)
Definition clamp (v lo hi : Z) : Z := Z.max lo (Z.min hi v).

Definition arm (hw : Hardware) (trigger_channel : Channel)
  (trigger_voltage : Voltage) (trigger_dir : Edge) (trigger_timeout : Z)
  : OM unit :=
  modify (on_trigger_state (set_channel trigger_channel));;
  modify (on_trigger_state (set_waiting 0));;
  modify (on_trigger_state (set_timeout trigger_timeout));;
  modify (on_trigger_state (set_ready false));;
  g ← get;
  let gain := array_get (gains (g_state g)) trigger_channel in
  let resolution := resolution (g_state g) in
  let level_i16 := int16_t (trigger_voltage trigger_channel gain resolution) in
  (* Clamp trigger level to the resolution range, excluding zero. *)
  modify (on_trigger_state
            (set_level
               (uint16_t (clamp level_i16 1 (unsigned_int (resolution - 1))))));;
  (if trigger_dir =? EDGE_ANY then
     (* Set trigger polarity to the opposite of the current sample
        polarity. *)
     g ← get;
     modify (on_trigger_state
               (set_polarity
                  (ADC_BUFFERS hw trigger_channel <? level (g_trigger_state g))));;
     (* Ready to trigger when the voltage crosses the trigger level. *)
     modify (on_trigger_state (set_ready true))
   else
     (* [trigger == EDGE_RISING]: the function, not [trigger_dir]. *)
     modify (on_trigger_state (set_polarity (fn_trigger hw =? EDGE_RISING))));;
  call (ADC_enable_interrupt cb_OSC_trigger).

(** [trigger] works on [ts], a copy of [g_trigger_state] that is local to
    the call; nothing is stored back. *)
Definition trigger (hw : Hardware) (channel : Channel) : OM unit :=
  g ← get;
  let ts := g_trigger_state g in
  let triggered := false in
  (* Trigger timeout? *)
  let ts := set_waiting (uint16_t (waiting ts + 1)) ts in
  let triggered := triggered || (waiting ts >? timeout ts) in
  (* Don't trigger immediately if the voltage starts at or above the
     trigger value. *)
  let sample_polarity := ADC_BUFFERS hw (OSC.channel ts) >=? level ts in
  let polarity_equal := eqb (polarity ts) sample_polarity in
  let ts := set_ready (ready ts || negb polarity_equal) ts in
  (* Trigger condition met? *)
  let triggered := triggered || (ready ts && polarity_equal) in
  if triggered then
    match num_channels (g_state g) with
    | 4 => call (DMAx_start_fast 3);; call (DMAx_start_fast 2);;
           call (DMAx_start_fast 1);; call (DMAx_start_fast 0)
    | 3 => call (DMAx_start_fast 2);;
           call (DMAx_start_fast 1);; call (DMAx_start_fast 0)
    | 2 => call (DMAx_start_fast 1);; call (DMAx_start_fast 0)
    | 1 => call (DMAx_start_fast 0)
    | _ => mret tt
    end;;
    call ADC_disable_interrupt
  else mret tt.

End OSC.

(** ** Vocabulary of the properties *)

(** [a] is called before [b] somewhere in the trace. *)
Definition precedes (a b : Call) (t : list Call) : Prop :=
  ∃ i j : nat, t !! i = Some a ∧ t !! j = Some b ∧ (i < j)%nat.

(** The order the fire sequence is documented with: every edge detector is
    started before the capture clock, the clock before every DMA mover, and
    every DMA mover before the pin states are read. *)
Definition detectors_before_clock (t : list Call) : Prop :=
  ∀ (i j : nat) x e,
    t !! i = Some (ICx_start_fast x e) → t !! j = Some TMR5_start_fast →
    (i < j)%nat.
Definition clock_before_movers (t : list Call) : Prop :=
  ∀ (i j : nat) x,
    t !! i = Some TMR5_start_fast → t !! j = Some (DMAx_start_fast x) →
    (i < j)%nat.
Definition movers_before_pins (t : list Call) : Prop :=
  ∀ (i j : nat) x,
    t !! i = Some (DMAx_start_fast x) → t !! j = Some PINS_get_la_states →
    (i < j)%nat.
Definition fire_order (t : list Call) : Prop :=
  detectors_before_clock t ∧ clock_before_movers t ∧ movers_before_pins t.

(** A hardware snapshot for the examples: the sample buffer at address
    4096 holds the raw timestamps 100, 150, 400 in its first three words,
    and the converter reads 100. *)
Definition hw0 : Hardware :=
  {| BUFFER := 4096; FCY := 64000000; fn_trigger := 1234;
     mem := λ a, if a =? 4096 then 100 else if a =? 4098 then 150
                 else if a =? 4100 then 400 else 0;
     PORTB := 0; DMA_progress := λ c, 7 + c; ADC_BUFFERS := λ _, 100 |}.

(** The logic analyzer in a session of [n] channels and [e] events per
    channel that has fired: locked, all [n] channels active. *)
Definition capturing (n e : Z) : LA.LogicAnalyzerState :=
  {| LA.locked := true; LA.configured_channels := n; LA.active_channels := n;
     LA.capture_edge := EDGE_RISING; LA.trigger_edge := EDGE_NONE;
     LA.initial_states := 0; LA.events_per_channel := e;
     LA.initial_addresses := [NULL; NULL; NULL; NULL];
     LA.final_progress := [0; 0; 0; 0] |}.

(** The bytes and the word of a capture request. *)
Definition request (n e edge pin tedge : Z) : LA.CaptureRequest :=
  {| LA.rx_num_channels := n; LA.rx_events := e; LA.rx_edge := edge;
     LA.rx_trigger_pin := pin; LA.rx_trigger_edge := tedge |}.

(** The completion interrupts of a session, served in the given order. *)
Fixpoint completions (order : list Channel) : M LA.LogicAnalyzerState unit :=
  match order with
  | [] => mret tt
  | c :: order' => LA.cleanup_callback c;; completions order'
  end.

(** The array of final counts after the completions in [l]. *)
Definition progress_after (e : Z) (l : list Channel) (a : list Z) : list Z :=
  foldl (λ a c, array_set a c e) a l.

(** The [j]-th raw timestamp of the region at [address], and the delta the
    specification gives for it: the raw value minus the raw value before it
    (minus 0 for the first), as an [uint16_t]. *)
Definition raw_timestamp (hw : Hardware) (address j : Z) : Z :=
  mem hw (ptr_add address j).
Definition timedelta (hw : Hardware) (address j : Z) : Z :=
  uint16_t (raw_timestamp hw address j
            - (if j =? 0 then 0 else raw_timestamp hw address (j - 1))).

(** The DMA configurations in a trace: channel, word count, destination. *)
Definition dma_setups (t : list Call) : list (Channel * Z * Z) :=
  omap (λ c, match c with
             | DMA_setup channel count address _ => Some (channel, count, address)
             | _ => None
             end) t.

(** The first word of the region the specification assigns to channel [i]
    of [n], as an index into the sample buffer. *)
Definition region_offset (i n : Z) : Z := i * (BUFFER_SIZE / n).

(** [tmr.h]: the division factor a [TMR_Prescaler] enumerator selects. *)
Definition prescaler_factor (prescaler : TMR_Prescaler) : option Z :=
  match prescaler with
  | 0 => Some 1
  | 1 => Some 8
  | 2 => Some 64
  | 3 => Some 256
  | _ => None
  end.

(** The oscilloscope globals as they are at start-up, all zero, and with a
    resolution of 1024 and unit gains. *)
Definition osc_zero : OSC.Globals :=
  {| OSC.g_state :=
       {| OSC.num_channels := 0; OSC.ch0map := 0; OSC.resolution := 0;
          OSC.gains := [0; 0; 0; 0] |};
     OSC.g_trigger_state :=
       {| OSC.channel := 0; OSC.level := 0; OSC.waiting := 0;
          OSC.timeout := 0; OSC.ready := false; OSC.polarity := false |} |}.
Definition osc_1024 : OSC.Globals :=
  {| OSC.g_state :=
       {| OSC.num_channels := 1; OSC.ch0map := 0; OSC.resolution := 1024;
          OSC.gains := [1; 1; 1; 1] |};
     OSC.g_trigger_state := OSC.g_trigger_state osc_zero |}.

(** A sample interval of [n] clock ticks, shorter than the 12-bit
    threshold. *)
Definition ticks (n : Z) : OSC.Timegap :=
  {| OSC.timegap_slow := false; OSC.timegap_ticks := n |}.

(** A trigger voltage that quantizes to [level]. *)
Definition volts (level : Z) : OSC.Voltage := λ _ _ _, level.

(** Trigger voltages given by their place in the channel's range: with
    [(trigger_voltage - offset) / range] equal to 1 the expression
    [(trigger_voltage - offset) / range * resolution] is the resolution,
    with 1/2 it is half the resolution. *)
Definition full_scale : OSC.Voltage := λ _ _ resolution, resolution.
Definition half_scale : OSC.Voltage := λ _ _ resolution, resolution / 2.

(** The level [g_trigger_state] holds after [OSC.arm]. *)
Definition armed_level (hw : Hardware) (trigger_channel : Channel)
    (trigger_voltage : OSC.Voltage) (trigger_dir : Edge) (trigger_timeout : Z)
    (g : OSC.Globals) : Z :=
  OSC.level
    (OSC.g_trigger_state
       (state_of (OSC.arm hw trigger_channel trigger_voltage trigger_dir
                    trigger_timeout g))).

(** The hardware when the converter holds the sample [v]. *)
Definition with_sample (hw : Hardware) (v : Z) : Hardware :=
  {| BUFFER := BUFFER hw; FCY := FCY hw; fn_trigger := fn_trigger hw;
     mem := mem hw; PORTB := PORTB hw; DMA_progress := DMA_progress hw;
     ADC_BUFFERS := λ _, v |}.

(** The sample-ready interrupt served once for each sample of the list. *)
Fixpoint deliver (hw : Hardware) (samples : list Z) : M OSC.Globals unit :=
  match samples with
  | [] => mret tt
  | v :: samples' =>
      OSC.trigger (with_sample hw v) CHANNEL_1;; deliver hw samples'
  end.

(** The movers [OSC.trigger] starts for a channel count. *)
Definition movers (num_channels : Z) : list Call :=
  match num_channels with
  | 4 => [DMAx_start_fast 3; DMAx_start_fast 2; DMAx_start_fast 1;
          DMAx_start_fast 0]
  | 3 => [DMAx_start_fast 2; DMAx_start_fast 1; DMAx_start_fast 0]
  | 2 => [DMAx_start_fast 1; DMAx_start_fast 0]
  | 1 => [DMAx_start_fast 0]
  | _ => []
  end.

(** The calls of the [switch] of [LA.trigger] for a channel count, and the
    call that releases the trigger interrupt at its end. *)
Definition fire_cascade (n : Z) (e : Edge) : list Call :=
  match n with
  | 4 => [ICx_start_fast 4 e; ICxBUF 4; DMAx_start_fast 3;
          ICx_start_fast 3 e; ICxBUF 3; DMAx_start_fast 2;
          ICx_start_fast 2 e; ICxBUF 2; DMAx_start_fast 1;
          ICx_start_fast 1 e; ICxBUF 1; DMAx_start_fast 0]
  | 3 => [ICx_start_fast 3 e; ICxBUF 3; DMAx_start_fast 2;
          ICx_start_fast 2 e; ICxBUF 2; DMAx_start_fast 1;
          ICx_start_fast 1 e; ICxBUF 1; DMAx_start_fast 0]
  | 2 => [ICx_start_fast 2 e; ICxBUF 2; DMAx_start_fast 1;
          ICx_start_fast 1 e; ICxBUF 1; DMAx_start_fast 0]
  | 1 => [ICx_start_fast 1 e; ICxBUF 1; DMAx_start_fast 0]
  | _ => []
  end.
Definition trigger_release (c : Channel) (trigger_edge : Edge) : list Call :=
  if (trigger_edge =? EDGE_RISING) || (trigger_edge =? EDGE_FALLING)
  then [IC_interrupt_disable c]
  else if trigger_edge =? EDGE_ANY then [CN_reset] else [].

(** The calls with which [LA.arm] waits for a trigger on [channel]. *)
Definition arm_wait (channel : Channel) (edge : Edge) : list Call :=
  if edge =? EDGE_ANY
  then [CN_reset; CN_interrupt_enable channel cb_LA_trigger]
  else [IC_start channel edge; IC_interrupt_enable channel cb_LA_trigger].

(** The calls of [LA.setup] for channel [i] of [n]. *)
Definition setup_channel (hw : Hardware) (n e i : Z) : list Call :=
  [IC_reset i; DMA_reset i;
   DMA_setup i e (LA.channel_address hw i n) DMA_SOURCE_IC;
   BUFFER_set (LA.channel_address hw i n) 0 e;
   DMA_interrupt_enable i cb_LA_cleanup_callback;
   IC_setup i IC_TIMER_TMR5].

(** A call that starts a clock or a DMA mover. *)
Definition starts_capture (c : Call) : bool :=
  match c with
  | TMR5_start_fast | DMAx_start_fast _ => true
  | _ => false
  end.

(** The 16-bit words a trace sends over the UART. *)
Definition sent_words (t : list Call) : list Z :=
  omap (λ c, match c with UART1_WriteInt w => Some w | _ => None end) t.

(** What the receiver of the deltas does: the running sum, modulo 2^16,
    starting from [previous]. *)
Fixpoint decode_deltas (previous : Z) (deltas : list Z) : list Z :=
  match deltas with
  | [] => []
  | d :: deltas' =>
      let timestamp := uint16_t (previous + d) in
      timestamp :: decode_deltas timestamp deltas'
  end.

(** The request [LA_capture] decodes from its five reads. *)
Definition rx_n (rx : LA.CaptureRequest) : Z := uint8_t (LA.rx_num_channels rx).
Definition rx_e (rx : LA.CaptureRequest) : Z := uint16_t (LA.rx_events rx).
Definition rx_capture_edge (rx : LA.CaptureRequest) : Edge :=
  int8_t (LA.rx_edge rx).
Definition rx_pin (rx : LA.CaptureRequest) : Channel :=
  int8_t (LA.rx_trigger_pin rx).
Definition rx_tedge (rx : LA.CaptureRequest) : Edge :=
  int8_t (LA.rx_trigger_edge rx).

(** A request that passes the four argument checks. *)
Definition acceptable (rx : LA.CaptureRequest) : Prop :=
  1 <= rx_n rx <= 4
  ∧ rx_e rx * rx_n rx <= BUFFER_SIZE
  ∧ rx_capture_edge rx ≠ EDGE_NONE.

(** No trigger to wait for: [LA.arm] fires at once. *)
Definition immediate (rx : LA.CaptureRequest) : bool :=
  (rx_pin rx =? CHANNEL_NONE) || (rx_tedge rx =? EDGE_NONE).

(** ** Inline register accessors ([ic.h], [tmr.h], [dma.h]) *)

Module REG.

(** [ICx_start_fast], the same text for IC1 to IC4, each on its own
    [ICxCON1]: the value the register holds afterwards.
    [icm = edge + 1], [icm_mask = ~7],
    [ICxCON1 = (ICxCON1 & icm_mask) | icm]. *)
Definition ICx_start_fast (ICxCON1 : Z) (edge : Edge) : Z :=
  let icm := uint16_t (edge + 1) in
  let icm_mask := uint16_t (Z.lnot 7) in
  uint16_t (Z.lor (Z.land ICxCON1 icm_mask) icm).

(** [TMR5_start_fast] and [DMAx_start_fast]: [reg |= 1 << 15] on the
    16-bit [T5CON] or [DMAxCON]. *)
Definition start_fast (reg : Z) : Z :=
  uint16_t (Z.lor reg (unsigned_int (int (Z.shiftl 1 15)))).

End REG.

(** ** [helpers/buffer.c] and the command handlers of [oscilloscope.c] *)

Module CMD.

(** [tSPI_CS]: the two chip selects [OSCILLOSCOPE_SetPGAGain] uses. *)
Inductive SPI_CS : Type := SPI_CH1 | SPI_CH2.

(** The calls these handlers make besides reading the UART. *)
Inductive Io : Type :=
| LED_SetLow
| LED_SetHigh
| UART1_WriteInt (word : Z)
| SPI_configure
| SPI_exchange_int (channel : SPI_CS) (cmd : Z).

(** What the handlers find outside: [rx k] is the value the [k]-th UART
    read returns (a byte for [UART1_Read], a word for [UART1_ReadInt]),
    [BUFFER] the address of the sample buffer, and the last two the results
    of the SPI driver. *)
Record Host : Type := {
  rx : nat → Z;
  BUFFER : Z;
  SPI_configure_ok : bool;
  SPI_exchange_result : response_t;
}.

(** What they change: data memory (the 16-bit word at a byte address), the
    number of UART reads served, and the trigger variables behind the
    [SetTRIGGER_...] accessors, which are not among the sources. *)
Record World : Type := {
  memory : Z → Z;
  rx_count : nat;
  TRIGGER_CHANNEL : Z;
  TRIGGER_PRESCALER : Z;
  TRIGGER_LEVEL : Z;
}.

Definition set_memory (v : Z → Z) (w : World) : World :=
  {| memory := v; rx_count := rx_count w;
     TRIGGER_CHANNEL := TRIGGER_CHANNEL w;
     TRIGGER_PRESCALER := TRIGGER_PRESCALER w;
     TRIGGER_LEVEL := TRIGGER_LEVEL w |}.
Definition set_rx_count (v : nat) (w : World) : World :=
  {| memory := memory w; rx_count := v;
     TRIGGER_CHANNEL := TRIGGER_CHANNEL w;
     TRIGGER_PRESCALER := TRIGGER_PRESCALER w;
     TRIGGER_LEVEL := TRIGGER_LEVEL w |}.
Definition SetTRIGGER_CHANNEL (v : Z) (w : World) : World :=
  {| memory := memory w; rx_count := rx_count w;
     TRIGGER_CHANNEL := v;
     TRIGGER_PRESCALER := TRIGGER_PRESCALER w;
     TRIGGER_LEVEL := TRIGGER_LEVEL w |}.
Definition SetTRIGGER_PRESCALER (v : Z) (w : World) : World :=
  {| memory := memory w; rx_count := rx_count w;
     TRIGGER_CHANNEL := TRIGGER_CHANNEL w;
     TRIGGER_PRESCALER := v;
     TRIGGER_LEVEL := TRIGGER_LEVEL w |}.
Definition SetTRIGGER_LEVEL (v : Z) (w : World) : World :=
  {| memory := memory w; rx_count := rx_count w;
     TRIGGER_CHANNEL := TRIGGER_CHANNEL w;
     TRIGGER_PRESCALER := TRIGGER_PRESCALER w;
     TRIGGER_LEVEL := v |}.

(** The handlers as state transformers with a trace of [Io] calls. *)
Definition P (A : Type) : Type := World → A * World * list Io.

Global Instance P_ret : MRet P := λ A a w, (a, w, []).
Global Instance P_bind : MBind P := λ A B k m w,
  let '(a, w1, t1) := m w in
  let '(b, w2, t2) := k a w1 in
  (b, w2, t1 ++ t2).

Definition update (f : World → World) : P unit := λ w, (tt, f w, []).
Definition emit (e : Io) : P unit := λ w, (tt, w, [e]).

Definition UART1_Read (h : Host) : P Z := λ w,
  (uint8_t (rx h (rx_count w)), set_rx_count (S (rx_count w)) w, []).
Definition UART1_ReadInt (h : Host) : P Z := λ w,
  (uint16_t (rx h (rx_count w)), set_rx_count (S (rx_count w)) w, []).

Definition load (address : Z) : P Z := λ w, (memory w address, w, []).
Definition store (address v : Z) : P unit :=
  update (λ w, set_memory (λ a, if a =? address then v else memory w a) w).

(** [for (i = first; ...; ++i) body(i)] with [n] iterations to run. *)
Fixpoint loop (n : nat) (i : Z) (body : Z → P unit) : P unit :=
  match n with
  | O => mret tt
  | S n' => body i;; loop n' (i + 1) body
  end.

(** [memset(p, c, n)] on word-aligned [p]: [n] bytes are set to
    [(unsigned char)c].  A word with both bytes in the range becomes
    [c c]; with an odd [n] the last word keeps its high byte (the low byte
    has the lower address). *)
Definition memset (p c n : Z) (m : Z → Z) : Z → Z :=
  let b := uint8_t c in
  λ a, if (p <=? a) && (a + 1 <? p + n) then b * 2 ^ 8 + b
       else if (p <=? a) && (a <? p + n) then Z.land (m a) 0xFF00 + b
       else m a.

Definition BUFFER_send (start size : Z) : P unit :=
  emit LED_SetLow;;
  loop (Z.to_nat size) 0 (λ i,
    v ← load (ptr_add start i);
    emit (UART1_WriteInt v));;
  emit LED_SetHigh.

Definition BUFFER_set (start val size : Z) : P Z :=
  update (λ w, set_memory (memset start val size (memory w)) w);;
  mret start.

Definition BUFFER_Retrieve (h : Host) : P response_t :=
  a ← UART1_ReadInt h;
  let idx := ptr_add (BUFFER h) a in
  n ← UART1_ReadInt h;
  let end_ := ptr_add idx n in
  BUFFER_send idx (uint16_t (int ((end_ - idx) / 2)));;
  mret SUCCESS.


Definition BUFFER_FetchLong (h : Host) : P response_t :=
  counter ← UART1_ReadInt h;
  channel ← UART1_Read h;
  emit LED_SetLow;;
  loop (Z.to_nat counter) 0 (λ i,
    lo ← load (ptr_add (BUFFER h)
                 (unsigned_int (i + int (2 * channel * (BUFFER_SIZE / 4)))));
    emit (UART1_WriteInt lo);;
    hi ← load (ptr_add (BUFFER h)
                 (unsigned_int (i + int ((2 * channel + 1) * (BUFFER_SIZE / 4)))));
    emit (UART1_WriteInt hi));;
  emit LED_SetHigh;;
  mret SUCCESS.

Definition BUFFER_Fill (h : Host) : P response_t :=
  start ← UART1_ReadInt h;
  end_ ← UART1_ReadInt h;
  loop (Z.to_nat (unsigned_int (start + end_) - start)) start (λ i,
    v ← UART1_ReadInt h;
    store (ptr_add (BUFFER h) i) v);;
  mret SUCCESS.


(** [enum Gain] of [oscilloscope.c]: [GAIN_X1] = 0, ..., [GAIN_X32] = 7,
    [GAIN_INVALID] = 8. *)
Definition GAIN_INVALID : Z := 8.

(** The loop of [OSCILLOSCOPE_ConfigureTrigger]:
    [for (i = 0; i < MAX_CHANNELS; i++)
       if (channelbits & (1 << i)) { SetTRIGGER_CHANNEL(i); break; }]
    with [n] iterations left. *)
Fixpoint find_trigger_channel (n : nat) (i channelbits : Z) : P unit :=
  match n with
  | O => mret tt
  | S n' =>
      if Z.land channelbits (int (Z.shiftl 1 i)) =? 0
      then find_trigger_channel n' (i + 1) channelbits
      else update (SetTRIGGER_CHANNEL i)
  end.

(** [MAX_CHANNELS] is not defined among the sources and is a parameter. *)
Definition OSCILLOSCOPE_ConfigureTrigger (MAX_CHANNELS : Z) (h : Host)
  : P response_t :=
  config ← UART1_Read h;
  let channelbits := uint8_t (Z.land config 0x0F) in
  find_trigger_channel (Z.to_nat MAX_CHANNELS) 0 channelbits;;
  update (SetTRIGGER_PRESCALER (Z.shiftr config 4));;
  level ← UART1_ReadInt h;
  update (SetTRIGGER_LEVEL level);;
  mret SUCCESS.

(** [OSCILLOSCOPE_SetPGAGain] after its [switch]. *)
Definition SetPGAGain_channel (h : Host) (channel : SPI_CS) : P response_t :=
  gain ← UART1_Read h;
  if gain >=? GAIN_INVALID then mret FAILED
  else
    let write_register := 0x4000 in
    let cmd := uint16_t (Z.lor write_register gain) in
    emit SPI_configure;;
    if SPI_configure_ok h then
      emit LED_SetHigh;;
      emit (SPI_exchange_int channel cmd);;
      mret (SPI_exchange_result h)
    else mret FAILED.

Definition OSCILLOSCOPE_SetPGAGain (h : Host) : P response_t :=
  selector ← UART1_Read h;
  match selector with
  | 1 => SetPGAGain_channel h SPI_CH1
  | 2 => SetPGAGain_channel h SPI_CH2
  | _ =>
      UART1_Read h;; (* Consume remaining data. *)
      mret FAILED
  end.

(** [HOST_read]: the status [UART_read] returned is mapped.  [enum Status]
    is not among the sources; these are the six enumerators the function
    names and, as [E_other], every remaining one. *)
Inductive Status : Type :=
| E_UART_RX_TIMEOUT
| E_UART_RX_PARITY
| E_UART_RX_FRAMING
| E_UART_RX_OVERRUN
| E_HOST_READ
| E_HOST_RX_OVERRUN
| E_other (code : Z).

Definition HOST_read (UART_read : Status) : Status :=
  match UART_read with
  | E_UART_RX_TIMEOUT | E_UART_RX_PARITY | E_UART_RX_FRAMING => E_HOST_READ
  | E_UART_RX_OVERRUN => E_HOST_RX_OVERRUN
  | status => status
  end.

End CMD.

(** The words a handler sends, and the value of a UART word read. *)
Definition io_words (t : list CMD.Io) : list Z :=
  omap (λ e, match e with CMD.UART1_WriteInt w => Some w | _ => None end) t.
Definition rx_word (h : CMD.Host) (k : nat) : Z := uint16_t (CMD.rx h k).
Definition rx_byte (h : CMD.Host) (k : nat) : Z := uint8_t (CMD.rx h k).

(** Word [i] of the sample buffer. *)
Definition buffer_word (h : CMD.Host) (w : CMD.World) (i : Z) : Z :=
  CMD.memory w (ptr_add (CMD.BUFFER h) i).

(** A host and a world for the examples: the UART delivers 3, 2, 11, 22
    (fill two words from index 3) and then 3, 2 (retrieve them). *)
Definition host0 : CMD.Host :=
  {| CMD.rx := λ k, nth k [3; 2; 11; 22; 3; 2] 0; CMD.BUFFER := 4096;
     CMD.SPI_configure_ok := true; CMD.SPI_exchange_result := SUCCESS |}.
Definition world0 : CMD.World :=
  {| CMD.memory := λ _, 0xFFFF; CMD.rx_count := 0; CMD.TRIGGER_CHANNEL := 0;
     CMD.TRIGGER_PRESCALER := 0; CMD.TRIGGER_LEVEL := 0 |}.

(** ** Running the monad *)

Ltac unfold_M :=
  unfold mbind, M_bind, mret, M_ret, get, modify, call,
    calls, state_of, result in *.
Ltac run_M := unfold_M; cbn.

(** Boolean tests of [Z] turned into propositions for [lia]. *)
Ltac Zbool :=
  repeat match goal with
    | H : (_ =? _) = true |- _ => apply Z.eqb_eq in H
    | H : (_ =? _) = false |- _ => apply Z.eqb_neq in H
    | H : (_ >? _) = true |- _ => rewrite Z.gtb_ltb in H; apply Z.ltb_lt in H
    | H : (_ >? _) = false |- _ => rewrite Z.gtb_ltb in H; apply Z.ltb_ge in H
    | H : (_ <? _) = true |- _ => apply Z.ltb_lt in H
    | H : (_ <? _) = false |- _ => apply Z.ltb_ge in H
    | H : (_ >=? _) = true |- _ => rewrite Z.geb_leb in H; apply Z.leb_le in H
    | H : (_ >=? _) = false |- _ => rewrite Z.geb_leb in H; apply Z.leb_gt in H
    | H : (_ <=? _) = true |- _ => apply Z.leb_le in H
    | H : (_ <=? _) = false |- _ => apply Z.leb_gt in H
    end.

(** Case analysis on the first pending test of the program. *)
Ltac step_if :=
  match goal with
  | |- context [if ?c then _ else _] => destruct c eqn:?; cbn
  end.

Lemma bind_run {S A B} (m : M S A) (k : A → M S B) (s : S) :
  (m ≫= k) s =
    (result (k (result (m s)) (state_of (m s))),
     state_of (k (result (m s)) (state_of (m s))),
     calls (m s) ++ calls (k (result (m s)) (state_of (m s)))).
Proof.
  unfold mbind, M_bind, result, state_of, calls.
  destruct (m s) as [[a s1] t1]; cbn.
  destruct (k a s1) as [[b s2] t2]; reflexivity.
Qed.

Lemma for_loop_S {S} (n : nat) (i : Z) (body : Z → M S unit) :
  for_loop (Datatypes.S n) i body = (body i;; for_loop n (i + 1) body).
Proof. reflexivity. Qed.

(** ** The fire sequence of the logic analyzer *)

(** The calls of [LA.trigger] in the timing-critical section, for each
    channel count of the [switch]. *)
Lemma LA_trigger_calls (hw : Hardware) (c : Channel) (s : LA.LogicAnalyzerState) :
  let e := LA.capture_edge s in
  ∃ rest,
    calls (LA.trigger hw c s) =
      match LA.configured_channels s with
      | 4 => [ICx_start_fast 4 e; ICxBUF 4; DMAx_start_fast 3;
              ICx_start_fast 3 e; ICxBUF 3; DMAx_start_fast 2;
              ICx_start_fast 2 e; ICxBUF 2; DMAx_start_fast 1;
              ICx_start_fast 1 e; ICxBUF 1; DMAx_start_fast 0]
      | 3 => [ICx_start_fast 3 e; ICxBUF 3; DMAx_start_fast 2;
              ICx_start_fast 2 e; ICxBUF 2; DMAx_start_fast 1;
              ICx_start_fast 1 e; ICxBUF 1; DMAx_start_fast 0]
      | 2 => [ICx_start_fast 2 e; ICxBUF 2; DMAx_start_fast 1;
              ICx_start_fast 1 e; ICxBUF 1; DMAx_start_fast 0]
      | 1 => [ICx_start_fast 1 e; ICxBUF 1; DMAx_start_fast 0]
      | _ => []
      end ++ [TMR5_start_fast; PINS_get_la_states] ++ rest.
Proof.
  intros e. unfold LA.trigger, LA.trigger_case. unfold_M.
  destruct ((LA.trigger_edge s =? EDGE_RISING) || (LA.trigger_edge s =? EDGE_FALLING))
    eqn:Hdir; [|destruct (LA.trigger_edge s =? EDGE_ANY) eqn:Hany];
    destruct (LA.configured_channels s) as [|[[[]|[]|]|[[]|[]|]|]|] eqn:Hn;
    cbn; rewrite ?Hn; cbn; rewrite ?Hdir, ?Hany; cbn; eexists; reflexivity.
Qed.

(** For every channel count 1..4 the mover of DMA0 is started before the
    capture clock. *)
Lemma LA_trigger_mover_before_clock (hw : Hardware) (c : Channel)
    (s : LA.LogicAnalyzerState) :
  1 <= LA.configured_channels s <= 4 →
  precedes (DMAx_start_fast 0) TMR5_start_fast (calls (LA.trigger hw c s)).
Proof.
  intros Hn. destruct (LA_trigger_calls hw c s) as [rest ->].
  assert (LA.configured_channels s = 1 ∨ LA.configured_channels s = 2 ∨
          LA.configured_channels s = 3 ∨ LA.configured_channels s = 4)
    as [-> | [-> | [-> | ->]]] by lia.
  - exists 2%nat, 3%nat. split_and!; [reflexivity..|lia].
  - exists 5%nat, 6%nat. split_and!; [reflexivity..|lia].
  - exists 8%nat, 9%nat. split_and!; [reflexivity..|lia].
  - exists 11%nat, 12%nat. split_and!; [reflexivity..|lia].
Qed.

(** C1 (the code departs from the claim).  With one configured channel the
    fire sequence calls, in this order: IC1 start, the discarding read of
    IC1BUF, DMA0 start, TMR5 start, pin-state read.  The DMA mover is started
    before the capture clock, so the documented order (detectors, clock,
    movers, pins) does not hold of the trace. *)
Theorem LA_trigger_one_channel_order :
  calls (LA.trigger hw0 CHANNEL_NONE (capturing 1 10)) =
    [ICx_start_fast 1 EDGE_RISING; ICxBUF 1; DMAx_start_fast 0;
     TMR5_start_fast; PINS_get_la_states; TMR_set_period TMR_TIMER_5 0]
  ∧ ¬ clock_before_movers (calls (LA.trigger hw0 CHANNEL_NONE (capturing 1 10)))
  ∧ ¬ fire_order (calls (LA.trigger hw0 CHANNEL_NONE (capturing 1 10))).
Proof.
  assert (Hc : ¬ clock_before_movers
                 (calls (LA.trigger hw0 CHANNEL_NONE (capturing 1 10)))).
  { intros H. specialize (H 3%nat 2%nat 0 eq_refl eq_refl). lia. }
  split; [reflexivity|]. split; [exact Hc|].
  intros (_ & H & _). exact (Hc H).
Qed.

(** ** Admission control of [LA_capture] *)

(** C3.  A capture request on a locked instrument returns [FAILED], the
    response that is neither [SUCCESS] nor [ARGUMENT_ERROR]; the state is
    the one before the call and no driver is called. *)
Theorem LA_capture_locked (hw : Hardware) (rx : LA.CaptureRequest)
    (s : LA.LogicAnalyzerState) :
  LA.locked s = true →
  LA.LA_capture hw rx s = (FAILED, s, [])
  ∧ FAILED ≠ ARGUMENT_ERROR ∧ FAILED ≠ SUCCESS.
Proof.
  intros Hl. split_and!; [|discriminate..].
  unfold LA.LA_capture. run_M. by rewrite Hl.
Qed.

Lemma LA_capture_locked_witness :
  LA.locked (capturing 2 10) = true
  ∧ LA.LA_capture hw0 (request 2 10 EDGE_RISING 255 255) (capturing 2 10)
    = (FAILED, capturing 2 10, []).
Proof.
  split; [reflexivity|].
  apply (LA_capture_locked hw0 (request 2 10 EDGE_RISING 255 255) (capturing 2 10)).
  reflexivity.
Defined.

(** The four argument checks, as the code evaluates them: the product is
    the 16-bit [unsigned int] product. *)
Lemma LA_capture_argument_error (hw : Hardware) (rx : LA.CaptureRequest)
    (s : LA.LogicAnalyzerState) :
  LA.locked s = false →
  uint8_t (LA.rx_num_channels rx) = 0
  ∨ uint8_t (LA.rx_num_channels rx) > CHANNEL_NUMEL
  ∨ unsigned_int (uint16_t (LA.rx_events rx) * uint8_t (LA.rx_num_channels rx))
    > BUFFER_SIZE
  ∨ int8_t (LA.rx_edge rx) = EDGE_NONE →
  LA.LA_capture hw rx s = (ARGUMENT_ERROR, s, []).
Proof.
  intros Hl H. unfold LA.LA_capture. run_M. rewrite Hl.
  unfold CHANNEL_NUMEL, BUFFER_SIZE, EDGE_NONE in *.
  do 4 (step_if; [reflexivity|]). exfalso; Zbool; lia.
Qed.

(** When the product of events and channels fits 16 bits, a request beyond
    the buffer capacity is refused. *)
Lemma LA_capture_capacity_checked (hw : Hardware) (n e edge pin tedge : Z)
    (s : LA.LogicAnalyzerState) :
  LA.locked s = false →
  0 <= n < 2 ^ 8 → 0 <= e < 2 ^ 16 → e * n < 2 ^ 16 →
  e * n > BUFFER_SIZE →
  LA.LA_capture hw (request n e edge pin tedge) s = (ARGUMENT_ERROR, s, []).
Proof.
  intros Hl Hn He Hfit Hcap. apply LA_capture_argument_error; [done|].
  right; right; left. cbn [LA.rx_events LA.rx_num_channels request].
  unfold unsigned_int, uint16_t, uint8_t.
  rewrite (Z.mod_small n), (Z.mod_small e), Z.mod_small by lia. lia.
Qed.

(** C4 (the code departs from the claim).  Two channels of 32768 events are
    65536 events, more than the buffer holds; the 16-bit product is 0, the
    check passes, and the request is set up and fired: [SUCCESS], the
    instrument locked, DMA0 configured for 32768 words. *)
Theorem LA_capture_product_wraps :
  let rx := request 2 32768 EDGE_ANY 255 255 in
  let r := LA.LA_capture hw0 rx LA.g_STATE_DEFAULT in
  LA.locked LA.g_STATE_DEFAULT = false
  ∧ LA.rx_events rx * LA.rx_num_channels rx > BUFFER_SIZE
  ∧ result r = SUCCESS
  ∧ LA.locked (state_of r) = true
  ∧ DMA_setup 0 32768 (BUFFER hw0) DMA_SOURCE_IC ∈ calls r.
Proof.
  cbn zeta. split_and!; [reflexivity|reflexivity|reflexivity|reflexivity|].
  by apply list_elem_of_lookup_2 with 2%nat.
Qed.

(** ** Completion of a capture session *)

(** [cleanup_callback] in closed form. *)
Lemma cleanup_callback_run (c : Channel) (s : LA.LogicAnalyzerState) :
  let a := uint8_t (LA.active_channels s - 1) in
  let s1 := LA.set_active_channels a
              (LA.set_final_progress c (LA.events_per_channel s) s) in
  LA.cleanup_callback c s =
    (tt, (if a =? 0 then LA.set_locked false s1 else s1),
     DMA_reset c :: IC_reset c ::
       (if a =? 0 then [TMR_reset LA.g_TIMER] else [])).
Proof.
  intros a s1. unfold LA.cleanup_callback. run_M. fold a.
  destruct (a =? 0); reflexivity.
Qed.

Lemma completions_cons (c : Channel) (l : list Channel)
    (s : LA.LogicAnalyzerState) :
  completions (c :: l) s =
    (tt, state_of (completions l (state_of (LA.cleanup_callback c s))),
     calls (LA.cleanup_callback c s)
       ++ calls (completions l (state_of (LA.cleanup_callback c s)))).
Proof.
  cbn [completions]. rewrite bind_run.
  by destruct (result (completions l (state_of (LA.cleanup_callback c s)))).
Qed.

Lemma completions_app (l1 l2 : list Channel) (s : LA.LogicAnalyzerState) :
  completions (l1 ++ l2) s =
    (tt, state_of (completions l2 (state_of (completions l1 s))),
     calls (completions l1 s)
       ++ calls (completions l2 (state_of (completions l1 s)))).
Proof.
  revert s. induction l1 as [|c l1 IH]; intros s.
  - cbn. by destruct (completions l2 s) as [[[] ?] ?].
  - rewrite <- app_comm_cons, !completions_cons, IH. cbn.
    by rewrite app_assoc.
Qed.

(** As long as channels remain active, completions keep the instrument
    locked and the clock running. *)
Lemma completions_pending (l : list Channel) (s : LA.LogicAnalyzerState) :
  Z.of_nat (length l) < LA.active_channels s < 2 ^ 8 →
  let r := completions l s in
  LA.locked (state_of r) = LA.locked s
  ∧ LA.active_channels (state_of r) = LA.active_channels s - Z.of_nat (length l)
  ∧ LA.configured_channels (state_of r) = LA.configured_channels s
  ∧ LA.events_per_channel (state_of r) = LA.events_per_channel s
  ∧ LA.final_progress (state_of r)
    = progress_after (LA.events_per_channel s) l (LA.final_progress s)
  ∧ TMR_reset LA.g_TIMER ∉ calls r.
Proof.
  revert s. induction l as [|c l IH]; intros s Ha r; subst r.
  - cbn. split_and!; try done; [lia | apply not_elem_of_nil].
  - cbn [length] in Ha. rewrite completions_cons, cleanup_callback_run.
    assert (Hu : uint8_t (LA.active_channels s - 1) = LA.active_channels s - 1)
      by (apply Z.mod_small; lia).
    rewrite Hu. destruct (Z.eqb_spec (LA.active_channels s - 1) 0); [lia|].
    cbn [state_of calls fst snd].
    edestruct IH as (Hl & Hact & Hc & He & Hf & Ht);
      [|rewrite Hl, Hact, Hc, He, Hf]; cbn; [lia|].
    split_and!; try done; [lia|].
    cbn. rewrite !not_elem_of_cons. split_and!; [done..|exact Ht].
Qed.

Lemma array_set_length (a : list Z) (i v : Z) :
  length (array_set a i v) = length a.
Proof. unfold array_set. case_match; [apply length_insert|done]. Qed.

Lemma array_get_set (a : list Z) (i j v : Z) :
  array_get (array_set a i v) j =
    if decide (i = j ∧ 0 <= i < Z.of_nat (length a)) then v else array_get a j.
Proof.
  unfold array_get, array_set.
  destruct (Z.leb_spec 0 i), (Z.leb_spec 0 j); try (case_decide; [lia|done]).
  rewrite list_lookup_insert.
  repeat case_decide; try done; exfalso; lia.
Qed.

Lemma progress_after_length (e : Z) (l : list Channel) (a : list Z) :
  length (progress_after e l a) = length a.
Proof.
  revert a. induction l as [|c l IH]; intros a; [done|].
  cbn. unfold progress_after in IH. by rewrite IH, array_set_length.
Qed.

Lemma progress_after_keeps (e : Z) (l : list Channel) (a : list Z) (i : Z) :
  array_get a i = e → array_get (progress_after e l a) i = e.
Proof.
  revert a. induction l as [|c l IH]; intros a Hi; [done|].
  cbn. apply IH. rewrite array_get_set. by case_decide.
Qed.

Lemma progress_after_elem (e : Z) (l : list Channel) (a : list Z) (i : Z) :
  i ∈ l → 0 <= i < Z.of_nat (length a) →
  array_get (progress_after e l a) i = e.
Proof.
  revert a. induction l as [|c l IH]; intros a Hin Hi.
  - by apply elem_of_nil in Hin.
  - cbn. apply elem_of_cons in Hin as [<- | Hin].
    + apply progress_after_keeps. rewrite array_get_set.
      case_decide; [done|lia].
    + apply IH; [done|]. by rewrite array_set_length.
Qed.

Lemma progress_after_snoc (e : Z) (l : list Channel) (c : Channel) (a : list Z) :
  array_set (progress_after e l a) c e = progress_after e (l ++ [c]) a.
Proof. unfold progress_after. by rewrite foldl_snoc. Qed.

(** A loop whose body leaves the state alone emits the calls of its
    iterations one after the other. *)
Lemma for_loop_pure {St} (body : Z → M St unit) (f : Z → list Call) (s : St) :
  (∀ i, body i s = (tt, s, f i)) →
  ∀ (n : nat) (i : Z),
    for_loop n i body s = (tt, s, concat (f <$> seqZ i (Z.of_nat n))).
Proof.
  intros Hb. induction n as [|n IH]; intros i; [done|].
  rewrite for_loop_S, bind_run, Hb. cbn [result state_of calls fst snd].
  rewrite IH. cbn [result state_of calls fst snd].
  rewrite (seqZ_cons i) by lia. cbn.
  by replace (Z.pred (Z.of_nat (S n))) with (Z.of_nat n) by lia.
Qed.

Lemma fmap_replicate {A B} (f : A → B) (y : B) (l : list A) :
  (∀ x, x ∈ l → f x = y) → f <$> l = replicate (length l) y.
Proof.
  induction l as [|x l IH]; intros Hf; [done|]. cbn. f_equal.
  - apply Hf. left.
  - apply IH. intros z Hz. apply Hf. by right.
Qed.

(** [LA_get_progress] once the instrument is unlocked: the frozen counts. *)
Lemma LA_get_progress_done (hw : Hardware) (s : LA.LogicAnalyzerState) :
  LA.locked s = false →
  LA.LA_get_progress hw s =
    (SUCCESS, s,
     UART1_Write (LA.configured_channels s) :: UART1_Write 1 ::
       ((λ i, UART1_WriteInt (array_get (LA.final_progress s) i))
          <$> seqZ 0 (LA.configured_channels s))).
Proof.
  intros Hl. unfold LA.LA_get_progress.
  rewrite bind_run. cbn [get result state_of calls fst snd].
  rewrite !bind_run, Hl. cbn [call negb result state_of calls fst snd].
  rewrite (for_loop_pure _
             (λ i, [UART1_WriteInt (array_get (LA.final_progress s) i)])).
  2: { intros i. by run_M. }
  cbn. repeat f_equal. unfold seqZ. rewrite Nat2Z.id.
  generalize (seq 0 (Z.to_nat (LA.configured_channels s))).
  intros l. induction l; cbn; by f_equal.
Qed.

(** C5.  A session with [n] configured channels is capturing: locked, with
    all [n] channels active.  When the completion callback has run once for
    each channel, in whatever order, the instrument is unlocked, no channel
    is active, every channel's final count is the requested number of
    events and [LA_get_progress] reports [done] with these counts.  Before
    the last of the callbacks the instrument is still locked and the clock
    has not been reset; the last one resets the clock, as its final call. *)
Theorem LA_completion_unlocks (hw : Hardware) (s : LA.LogicAnalyzerState)
    (order : list Channel) :
  let n := LA.configured_channels s in
  let e := LA.events_per_channel s in
  1 <= n <= 4 →
  LA.locked s = true →
  LA.active_channels s = n →
  length (LA.final_progress s) = 4%nat →
  order ≡ₚ seqZ 0 n →
  let r := completions order s in
  let s' := state_of r in
  LA.locked s' = false
  ∧ LA.active_channels s' = 0
  ∧ (∀ i, 0 <= i < n → array_get (LA.final_progress s') i = e)
  ∧ LA.LA_get_progress hw s' =
      (SUCCESS, s',
       UART1_Write n :: UART1_Write 1 ::
         replicate (Z.to_nat n) (UART1_WriteInt e))
  ∧ (∀ k : nat, (k < length order)%nat →
       LA.locked (state_of (completions (take k order) s)) = true
       ∧ TMR_reset LA.g_TIMER ∉ calls (completions (take k order) s))
  ∧ (∃ t, calls r = t ++ [TMR_reset LA.g_TIMER] ∧ TMR_reset LA.g_TIMER ∉ t).
Proof.
  intros n e Hn Hl Ha Hlen Hperm.
  assert (Hlo : length order = Z.to_nat n) by (by rewrite Hperm, length_seqZ).
  assert (Hne : order ≠ []) by (intros ->; cbn in Hlo; lia).
  destruct (exists_last Hne) as (l & c & ->).
  rewrite length_app in Hlo. cbn [length] in Hlo.
  destruct (completions_pending l s) as (Hl1 & Ha1 & Hc1 & He1 & Hf1 & Ht1);
    [lia|].
  rewrite completions_app, completions_cons. cbn [completions].
  set (s1 := state_of (completions l s)) in *.
  rewrite cleanup_callback_run.
  replace (LA.active_channels s1 - 1) with 0 by lia.
  change (uint8_t 0 =? 0) with true.
  cbn [mret M_ret result state_of calls fst snd]. rewrite app_nil_r.
  assert (Hfin : ∀ i, 0 <= i < n →
            array_get (array_set (LA.final_progress s1) c
                         (LA.events_per_channel s1)) i = e).
  { intros i Hi. rewrite Hf1, He1, progress_after_snoc.
    apply progress_after_elem; [|lia].
    rewrite Hperm. apply elem_of_seqZ. lia. }
  split_and!.
  - reflexivity.
  - reflexivity.
  - exact Hfin.
  - rewrite LA_get_progress_done by reflexivity.
    cbn [LA.configured_channels LA.final_progress LA.set_locked
           LA.set_active_channels LA.set_final_progress].
    rewrite Hc1. fold n. do 3 f_equal.
    rewrite <- (length_seqZ 0 n). apply fmap_replicate.
    intros i Hi%elem_of_seqZ. rewrite Hfin by lia. reflexivity.
  - intros k Hk. rewrite length_app in Hk. cbn [length] in Hk.
    rewrite take_app_le by lia.
    destruct (completions_pending (take k l) s) as (Hlk & _ & _ & _ & _ & Htk).
    { rewrite length_take. lia. }
    by rewrite Hlk.
  - exists (calls (completions l s) ++ [DMA_reset c; IC_reset c]). split.
    + by rewrite <- app_assoc.
    + rewrite elem_of_app, !elem_of_cons, elem_of_nil.
      intros [?|[?|[?|[]]]]; [done|discriminate..].
Qed.

Lemma LA_completion_unlocks_witness :
  LA.locked (capturing 2 10) = true
  ∧ [1; 0] ≡ₚ seqZ 0 2
  ∧ LA.locked (state_of (completions [1; 0] (capturing 2 10))) = false.
Proof.
  assert (Hp : [1; 0] ≡ₚ seqZ 0 2) by apply perm_swap.
  split; [reflexivity|]. split; [exact Hp|].
  apply (LA_completion_unlocks hw0 (capturing 2 10) [1; 0]);
    [cbn; lia | reflexivity | reflexivity | reflexivity | exact Hp].
Defined.

(** ** [LA_stop] *)

(** C6 (counterexample to the claim as stated).  Stopping a capture in
    which both channels are still active unlocks the instrument but leaves
    [active_channels] at 2. *)
Lemma LA_stop_leaves_active_channels :
  let r := LA.LA_stop hw0 (capturing 2 10) in
  LA.locked (capturing 2 10) = true
  ∧ result r = SUCCESS
  ∧ LA.locked (state_of r) = false
  ∧ LA.active_channels (state_of r) = 2
  ∧ LA.active_channels (state_of r) ≠ 0.
Proof. cbn zeta. split_and!; [reflexivity..|discriminate]. Qed.

(** C6 (amended).  [LA_stop] always returns [SUCCESS].  On an unlocked
    instrument it changes nothing and calls no driver.  On a locked one it
    resets the change notification and the clock and then, for each of the
    four channels in turn, resets the edge detector, reads the live DMA
    progress into [final_progress], and only then resets the DMA mover; it
    unlocks the instrument and leaves every other field, [active_channels]
    included, as it was.  A second [LA_stop] is a no-op. *)
Theorem LA_stop_releases (hw : Hardware) (s : LA.LogicAnalyzerState) :
  length (LA.final_progress s) = 4%nat →
  let r := LA.LA_stop hw s in
  result r = SUCCESS
  ∧ (LA.locked s = false → r = (SUCCESS, s, []))
  ∧ (LA.locked s = true →
     calls r =
       [CN_reset; TMR_reset LA.g_TIMER;
        IC_reset 0; DMA_get_progress 0; DMA_reset 0;
        IC_reset 1; DMA_get_progress 1; DMA_reset 1;
        IC_reset 2; DMA_get_progress 2; DMA_reset 2;
        IC_reset 3; DMA_get_progress 3; DMA_reset 3]
     ∧ state_of r =
       {| LA.locked := false;
          LA.configured_channels := LA.configured_channels s;
          LA.active_channels := LA.active_channels s;
          LA.capture_edge := LA.capture_edge s;
          LA.trigger_edge := LA.trigger_edge s;
          LA.initial_states := LA.initial_states s;
          LA.events_per_channel := LA.events_per_channel s;
          LA.initial_addresses := LA.initial_addresses s;
          LA.final_progress :=
            [DMA_progress hw 0; DMA_progress hw 1;
             DMA_progress hw 2; DMA_progress hw 3] |})
  ∧ (∀ hw', LA.LA_stop hw' (state_of r) = (SUCCESS, state_of r, [])).
Proof.
  intros Hlen.
  destruct s as [lk cc ac ce te ist ev ia fp]. cbn in Hlen.
  destruct fp as [|p0 [|p1 [|p2 [|p3 [|]]]]]; try discriminate.
  destruct lk; cbn zeta.
  - split_and!; [reflexivity|discriminate| |reflexivity].
    intros _. split; reflexivity.
  - split_and!; [reflexivity|reflexivity|discriminate|reflexivity].
Qed.

Lemma LA_stop_releases_witness :
  length (LA.final_progress (capturing 2 10)) = 4%nat
  ∧ result (LA.LA_stop hw0 (capturing 2 10)) = SUCCESS.
Proof.
  split; [reflexivity|].
  apply (LA_stop_releases hw0 (capturing 2 10)). reflexivity.
Defined.

(** ** Timestamp deltas *)

Lemma seqZ_of_to_nat (m n : Z) : seqZ m (Z.of_nat (Z.to_nat n)) = seqZ m n.
Proof. unfold seqZ. by rewrite Nat2Z.id. Qed.

Lemma send_timedeltas_run (hw : Hardware) (address : Z)
    (s : LA.LogicAnalyzerState) (n : nat) :
  ∀ j previous,
    0 <= j →
    previous = (if j =? 0 then 0 else raw_timestamp hw address (j - 1)) →
    LA.send_timedeltas hw n j address previous s =
      (tt, s, (λ k, UART1_WriteInt (timedelta hw address k))
                <$> seqZ j (Z.of_nat n)).
Proof.
  induction n as [|n IH]; intros j previous Hj Hp; [done|].
  cbn [LA.send_timedeltas]. rewrite bind_run.
  cbn [call result state_of calls fst snd].
  rewrite (IH (j + 1) (mem hw (ptr_add address j))); [|lia|].
  - cbn [result state_of calls fst snd]. rewrite (seqZ_cons j) by lia.
    replace (Z.pred (Z.of_nat (S n))) with (Z.of_nat n) by lia.
    subst previous. reflexivity.
  - destruct (Z.eqb_spec (j + 1) 0); [lia|].
    unfold raw_timestamp. do 2 f_equal. lia.
Qed.

(** Without wrap-around the delta is the plain difference. *)
Lemma timedelta_increasing (hw : Hardware) (address j : Z) :
  0 < j →
  0 <= raw_timestamp hw address (j - 1) <= raw_timestamp hw address j →
  raw_timestamp hw address j < 2 ^ 16 →
  timedelta hw address j
  = raw_timestamp hw address j - raw_timestamp hw address (j - 1).
Proof.
  intros Hj Hr Hlt. unfold timedelta.
  destruct (Z.eqb_spec j 0); [lia|]. apply Z.mod_small. lia.
Qed.

(** C8.  [LA_get_timestamps] sends the initial pin states, the scaling and
    the channel count, and then for each configured channel the number of
    events followed by one delta per event: delta 0 is raw value 0 minus 0,
    delta [j] is raw value [j] minus raw value [j - 1], in 16-bit unsigned
    arithmetic.  The raw values 100, 150, 400 are sent as 100, 50, 250. *)
Theorem LA_get_timestamps_deltas (hw : Hardware) (s : LA.LogicAnalyzerState) :
  LA.LA_get_timestamps hw s =
    (SUCCESS, s,
     [UART1_Write (LA.initial_states s);
      UART1_write_u32 (uint32_t (FCY hw / 1));
      UART1_Write (LA.configured_channels s)]
     ++ concat
          ((λ i,
              let events := array_get (LA.final_progress s) i in
              let address := array_get (LA.initial_addresses s) i in
              UART1_WriteInt events ::
                ((λ j, UART1_WriteInt (timedelta hw address j))
                   <$> seqZ 0 events))
             <$> seqZ 0 (LA.configured_channels s)))
  ∧ (∀ address, timedelta hw address 0 = uint16_t (raw_timestamp hw address 0 - 0))
  ∧ (raw_timestamp hw0 (BUFFER hw0) <$> [0; 1; 2]) = [100; 150; 400]
  ∧ calls (LA.LA_get_timestamps hw0
             (LA.set_final_progress 0 3
                (LA.set_initial_address 0 (BUFFER hw0)
                   (LA.set_configured_channels 1 LA.g_STATE_DEFAULT))))
    = [UART1_Write 0; UART1_write_u32 64000000; UART1_Write 1;
       UART1_WriteInt 3;
       UART1_WriteInt 100; UART1_WriteInt 50; UART1_WriteInt 250].
Proof.
  split_and!; [|reflexivity..].
  unfold LA.LA_get_timestamps.
  rewrite bind_run. cbn [get result state_of calls fst snd].
  rewrite !bind_run. cbn [call result state_of calls fst snd].
  rewrite (for_loop_pure _
    (λ i, UART1_WriteInt (array_get (LA.final_progress s) i) ::
            ((λ j, UART1_WriteInt
                     (timedelta hw (array_get (LA.initial_addresses s) i) j))
               <$> seqZ 0 (array_get (LA.final_progress s) i)))).
  - cbn. by rewrite seqZ_of_to_nat, app_nil_r.
  - intros i. rewrite bind_run. cbn [get result state_of calls fst snd].
    rewrite bind_run. cbn [call result state_of calls fst snd].
    rewrite send_timedeltas_run by done.
    cbn. by rewrite seqZ_of_to_nat.
Qed.

(** ** Buffer regions of the DMA movers *)

(** C10.  With [n] channels, 1 <= n <= 4, and [e] words per channel such
    that [e * n <= BUFFER_SIZE], both [setup] functions configure exactly
    one DMA mover per channel 0..n-1, for [e] words, at the address of
    buffer word [i * (BUFFER_SIZE / n)].  Each region ends inside the
    buffer, and the region of a channel ends before the region of every
    higher channel begins. *)
Theorem setup_regions_disjoint (hw : Hardware) (n e : Z) (edge : Edge)
    (s : LA.LogicAnalyzerState) (timegap : OSC.Timegap) (ch1_gain ch2_gain : Z)
    (g : OSC.Globals) :
  1 <= n <= 4 → 0 <= e → e * n <= BUFFER_SIZE →
  dma_setups (calls (LA.setup hw n e edge s))
    = (λ i, (i, e, ptr_add (BUFFER hw) (region_offset i n))) <$> seqZ 0 n
  ∧ dma_setups (calls (OSC.setup hw n e timegap ch1_gain ch2_gain g))
    = (λ i, (i, e, ptr_add (BUFFER hw) (region_offset i n))) <$> seqZ 0 n
  ∧ (∀ i, 0 <= i < n →
       0 <= region_offset i n ∧ region_offset i n + e <= BUFFER_SIZE)
  ∧ (∀ i j, 0 <= i < j → j < n →
       region_offset i n + e <= region_offset j n).
Proof.
  intros Hn He Hcap.
  assert (n = 1 ∨ n = 2 ∨ n = 3 ∨ n = 4) as [-> | [-> | [-> | ->]]] by lia.
  all: split_and!.
  all: try reflexivity.
  all: try (unfold OSC.setup; run_M;
            destruct (OSC.scale_delay _ _) as [prescaler delay]; reflexivity).
  all: unfold region_offset, BUFFER_SIZE in *; intros.
  all: match goal with
       | |- context [10000 / ?k] =>
           let q := eval vm_compute in (10000 / k) in
           change (10000 / k) with q
       end; lia.
Qed.

Lemma setup_regions_disjoint_witness :
  5000 * 2 <= BUFFER_SIZE
  ∧ dma_setups (calls (LA.setup hw0 2 5000 EDGE_ANY LA.g_STATE_DEFAULT))
    = [(0, 5000, 4096); (1, 5000, 14096)].
Proof.
  split; [unfold BUFFER_SIZE; lia|].
  apply (setup_regions_disjoint hw0 2 5000 EDGE_ANY LA.g_STATE_DEFAULT
           (ticks 0) 1 1 osc_zero);
    unfold BUFFER_SIZE; lia.
Defined.

(** ** Sample clock of the oscilloscope *)

(** Below 2^22 ticks the loop stops at a prescaler of 1, 8 or 64 and the
    period is the tick count divided by that factor. *)
Lemma scale_delay_small (delay : Z) :
  0 <= delay < 2 ^ 22 →
  ∃ prescaler factor,
    OSC.scale_delay TMR_PRESCALER_1 delay = (prescaler, delay / factor)
    ∧ prescaler_factor prescaler = Some factor
    ∧ 0 <= delay / factor <= UINT16_MAX.
Proof.
  intros Hd. unfold UINT16_MAX, TMR_PRESCALER_1.
  assert (H8 : delay / 8 / 8 = delay / 64) by (by rewrite Z.div_div by lia).
  assert (Hp8 : 0 <= delay / 8) by (apply Z.div_pos; lia).
  assert (Hp64 : 0 <= delay / 64) by (apply Z.div_pos; lia).
  assert (Hlt : delay / 64 < 2 ^ 16) by (apply Z.div_lt_upper_bound; lia).
  simp scale_delay. destruct (Z_gt_dec delay UINT16_MAX) as [H1|H1]; cbn.
  - simp scale_delay. destruct (Z_gt_dec (delay / 8) UINT16_MAX) as [H2|H2]; cbn.
    + simp scale_delay. rewrite H8.
      destruct (Z_gt_dec (delay / 64) UINT16_MAX) as [H3|H3]; cbn.
      * unfold UINT16_MAX in H3. lia.
      * exists 2, 64. unfold UINT16_MAX in *. split_and!; [done..|lia|lia].
    + exists 1, 8. unfold UINT16_MAX in *. split_and!; [done..|lia|lia].
  - exists 0, 1. rewrite Z.div_1_r. unfold UINT16_MAX in *.
    split_and!; [done..|lia|lia].
Qed.

(** From 2^22 ticks up to 2^25 the loop runs three times: the prescaler is
    [TMR_PRESCALER_256] and the period is the tick count divided by 512. *)
Lemma scale_delay_256 (delay : Z) :
  2 ^ 22 <= delay < 2 ^ 25 →
  OSC.scale_delay TMR_PRESCALER_1 delay = (TMR_PRESCALER_256, delay / 512).
Proof.
  intros Hd. unfold TMR_PRESCALER_1, TMR_PRESCALER_256.
  assert (H64 : delay / 8 / 8 = delay / 64) by (by rewrite Z.div_div by lia).
  assert (H512 : delay / 64 / 8 = delay / 512) by (by rewrite Z.div_div by lia).
  assert (Hge8 : 2 ^ 19 <= delay / 8) by (apply Z.div_le_lower_bound; lia).
  assert (Hge64 : 2 ^ 16 <= delay / 64) by (apply Z.div_le_lower_bound; lia).
  assert (Hlt : delay / 512 < 2 ^ 16) by (apply Z.div_lt_upper_bound; lia).
  simp scale_delay.
  destruct (Z_gt_dec delay UINT16_MAX); [cbn|unfold UINT16_MAX in *; lia].
  simp scale_delay.
  destruct (Z_gt_dec (delay / 8) UINT16_MAX); [cbn|unfold UINT16_MAX in *; lia].
  simp scale_delay. rewrite H64.
  destruct (Z_gt_dec (delay / 64) UINT16_MAX); [cbn|unfold UINT16_MAX in *; lia].
  simp scale_delay. rewrite H512.
  destruct (Z_gt_dec (delay / 512) UINT16_MAX); [unfold UINT16_MAX in *; lia|].
  reflexivity.
Qed.

(** [OSC.setup] writes the four gains and nothing else of the globals: the
    resolution it computes stays in its local variable. *)
Lemma OSC_setup_state (hw : Hardware) (num_channels samples : Z)
    (timegap : OSC.Timegap) (ch1_gain ch2_gain : Z) (g : OSC.Globals) :
  let g' := state_of (OSC.setup hw num_channels samples timegap ch1_gain
                        ch2_gain g) in
  OSC.g_trigger_state g' = OSC.g_trigger_state g
  ∧ OSC.resolution (OSC.g_state g') = OSC.resolution (OSC.g_state g)
  ∧ OSC.num_channels (OSC.g_state g') = OSC.num_channels (OSC.g_state g).
Proof.
  unfold OSC.setup. unfold_M. cbn.
  destruct (OSC.scale_delay _ _) as [prescaler delay]. cbn.
  erewrite for_loop_pure; [by cbn|].
  intros i. reflexivity.
Qed.

(** C9 (the code departs from the claim).  For 2^22 ticks the loop runs
    three times: the prescaler is [TMR_PRESCALER_256] and the period is
    2^22 / 512 = 8192, so prescaler times period is half the tick count.
    For 2^25 ticks it runs four times and the prescaler is 4, which is none
    of the four enumerators. *)
Theorem OSC_setup_prescaler_overshoots :
  let t22 := calls (OSC.setup hw0 1 100 (ticks (2 ^ 22)) 1 1 osc_zero) in
  let t25 := calls (OSC.setup hw0 1 100 (ticks (2 ^ 25)) 1 1 osc_zero) in
  OSC.scale_delay TMR_PRESCALER_1 (2 ^ 22) = (TMR_PRESCALER_256, 8192)
  ∧ TMR_set_prescaler OSC.g_TIMER TMR_PRESCALER_256 ∈ t22
  ∧ TMR_set_period OSC.g_TIMER 8192 ∈ t22
  ∧ prescaler_factor TMR_PRESCALER_256 = Some 256
  ∧ 256 * 8192 = 2 ^ 22 / 2
  ∧ 2 ^ 22 / 256 ≠ 8192
  ∧ OSC.scale_delay TMR_PRESCALER_1 (2 ^ 25) = (4, 8192)
  ∧ TMR_set_prescaler OSC.g_TIMER 4 ∈ t25
  ∧ prescaler_factor 4 = None.
Proof.
  cbn zeta. split_and!; try reflexivity; try discriminate.
  - by apply list_elem_of_lookup_2 with 4%nat.
  - by apply list_elem_of_lookup_2 with 5%nat.
  - by apply list_elem_of_lookup_2 with 4%nat.
Qed.

(** ** Trigger level of the oscilloscope *)

(** The clamp of [arm] taken by itself: in a state whose resolution field
    holds a value from 2 to 65535, the stored level is the quantized voltage
    clamped to the closed range from 1 to [resolution - 1]; it is never 0
    and never the resolution. *)
Lemma OSC_arm_level_clamped (hw : Hardware) (trigger_channel : Channel)
    (trigger_voltage : OSC.Voltage) (trigger_dir : Edge) (trigger_timeout : Z)
    (g : OSC.Globals) :
  let resolution := OSC.resolution (OSC.g_state g) in
  let gain := array_get (OSC.gains (OSC.g_state g)) trigger_channel in
  let q := int16_t (trigger_voltage trigger_channel gain resolution) in
  let level :=
    armed_level hw trigger_channel trigger_voltage trigger_dir
      trigger_timeout g in
  2 <= resolution < 2 ^ 16 →
  level = OSC.clamp q 1 (resolution - 1)
  ∧ 1 <= level <= resolution - 1
  ∧ level ≠ 0 ∧ level ≠ resolution
  ∧ (q <= 1 → level = 1)
  ∧ (resolution - 1 <= q → level = resolution - 1)
  ∧ (1 <= q <= resolution - 1 → level = q).
Proof.
  intros resolution gain q level Hres.
  assert (Hl : level = uint16_t (OSC.clamp q 1 (unsigned_int (resolution - 1)))).
  { subst level. unfold armed_level, OSC.arm. unfold_M. cbn.
    destruct (trigger_dir =? EDGE_ANY); reflexivity. }
  assert (Hu : unsigned_int (resolution - 1) = resolution - 1)
    by (apply Z.mod_small; lia).
  rewrite Hu in Hl. unfold OSC.clamp in *.
  assert (Hc : uint16_t (Z.max 1 (Z.min (resolution - 1) q))
               = Z.max 1 (Z.min (resolution - 1) q))
    by (apply Z.mod_small; lia).
  rewrite Hc in Hl. lia.
Qed.

(** With the resolution field at 1024, 0 is stored as 1 and 1024 as 1023. *)
Lemma OSC_arm_level_clamped_1024 :
  armed_level hw0 CHANNEL_1 (volts 0) EDGE_RISING 100 osc_1024 = 1
  ∧ armed_level hw0 CHANNEL_1 (volts 1024) EDGE_RISING 100 osc_1024 = 1023.
Proof. split; reflexivity. Qed.

(** [arm] writes the trigger state only. *)
Lemma OSC_arm_state (hw : Hardware) (trigger_channel : Channel)
    (trigger_voltage : OSC.Voltage) (trigger_dir : Edge) (trigger_timeout : Z)
    (g : OSC.Globals) :
  OSC.g_state
    (state_of (OSC.arm hw trigger_channel trigger_voltage trigger_dir
                 trigger_timeout g))
  = OSC.g_state g.
Proof.
  unfold OSC.arm. unfold_M. cbn.
  destruct (trigger_dir =? EDGE_ANY); reflexivity.
Qed.

Lemma int16_t_range (z : Z) : - 2 ^ 15 <= int16_t z < 2 ^ 15.
Proof.
  unfold int16_t.
  pose proof (Z.mod_pos_bound (z + 2 ^ 15) (2 ^ 16) ltac:(lia)). lia.
Qed.

(** With the resolution field at 0, the upper bound of the clamp is
    [(unsigned)(0 - 1)] = 65535 and only the lower bound acts. *)
Lemma OSC_arm_level_unset (hw : Hardware) (trigger_channel : Channel)
    (trigger_voltage : OSC.Voltage) (trigger_dir : Edge) (trigger_timeout : Z)
    (g : OSC.Globals) :
  OSC.resolution (OSC.g_state g) = 0 →
  armed_level hw trigger_channel trigger_voltage trigger_dir trigger_timeout g
  = Z.max 1
      (int16_t (trigger_voltage trigger_channel
                  (array_get (OSC.gains (OSC.g_state g)) trigger_channel) 0)).
Proof.
  intros Hres.
  assert (Hl : armed_level hw trigger_channel trigger_voltage trigger_dir
                 trigger_timeout g
               = uint16_t
                   (OSC.clamp
                      (int16_t
                         (trigger_voltage trigger_channel
                            (array_get (OSC.gains (OSC.g_state g))
                               trigger_channel)
                            (OSC.resolution (OSC.g_state g))))
                      1 (unsigned_int (OSC.resolution (OSC.g_state g) - 1)))).
  { unfold armed_level, OSC.arm. unfold_M. cbn.
    destruct (trigger_dir =? EDGE_ANY); reflexivity. }
  rewrite Hl, Hres. change (unsigned_int (0 - 1)) with 65535.
  unfold OSC.clamp.
  set (q := int16_t _). pose proof (int16_t_range (trigger_voltage
    trigger_channel (array_get (OSC.gains (OSC.g_state g)) trigger_channel) 0))
    as Hq.
  fold q in Hq. unfold uint16_t. rewrite Z.mod_small by lia. lia.
Qed.

(** ** Trigger evaluation of the oscilloscope *)

(** [OSC.trigger] in closed form: the globals are returned as they were. *)
Lemma OSC_trigger_run (hw : Hardware) (c : Channel) (g : OSC.Globals) :
  let ts := OSC.g_trigger_state g in
  let sample_polarity := ADC_BUFFERS hw (OSC.channel ts) >=? OSC.level ts in
  let polarity_equal := eqb (OSC.polarity ts) sample_polarity in
  let triggered :=
    (uint16_t (OSC.waiting ts + 1) >? OSC.timeout ts)
    || (OSC.ready ts && polarity_equal) in
  OSC.trigger hw c g =
    (tt, g,
     if triggered
     then movers (OSC.num_channels (OSC.g_state g)) ++ [ADC_disable_interrupt]
     else []).
Proof.
  intros ts sample_polarity polarity_equal triggered.
  unfold OSC.trigger. unfold_M. cbn.
  fold ts. fold sample_polarity. fold polarity_equal.
  replace ((uint16_t (OSC.waiting ts + 1) >? OSC.timeout ts)
           || (OSC.ready ts || negb polarity_equal) && polarity_equal)
    with triggered
    by (subst triggered; destruct (OSC.ready ts), polarity_equal,
          (uint16_t (OSC.waiting ts + 1) >? OSC.timeout ts); reflexivity).
  destruct triggered; [|reflexivity].
  destruct (OSC.num_channels (OSC.g_state g)) as [|[[[]|[]|]|[[]|[]|]|]|];
    reflexivity.
Qed.

Lemma OSC_trigger_state_unchanged (hw : Hardware) (c : Channel)
    (g : OSC.Globals) :
  state_of (OSC.trigger hw c g) = g.
Proof. by rewrite OSC_trigger_run. Qed.

Lemma deliver_state_unchanged (hw : Hardware) (samples : list Z)
    (g : OSC.Globals) :
  state_of (deliver hw samples g) = g.
Proof.
  induction samples as [|v samples IH]; [done|].
  cbn [deliver]. rewrite bind_run. cbn [state_of fst snd].
  by rewrite OSC_trigger_state_unchanged.
Qed.

(** C7 (the code departs from the claim).  No function of the driver
    stores the resolution: [setup] keeps it in a local variable, and
    [setup], [arm] and [trigger] all leave [g_state.resolution] as they
    found it, 0 from start-up.  [arm] therefore quantizes the voltage with
    a resolution of 0 and not with the active one, and clamps with the
    upper bound 65535: the stored level is the larger of 1 and the
    quantized value at resolution 0.  After a 10-bit [setup] (active
    resolution 1024) a voltage at the top of the range, which quantizes to
    1024, is stored as 1 and not as 1023, and so is one at half the range,
    which quantizes to 512. *)
Theorem OSC_arm_resolution_never_stored (hw hw' : Hardware)
    (num_channels samples : Z) (timegap : OSC.Timegap) (ch1_gain ch2_gain : Z)
    (trigger_channel : Channel) (trigger_voltage : OSC.Voltage)
    (trigger_dir : Edge) (trigger_timeout : Z) :
  let started :=
    state_of (OSC.setup hw num_channels samples timegap ch1_gain ch2_gain
                osc_zero) in
  let gain := array_get (OSC.gains (OSC.g_state started)) trigger_channel in
  let setup10 := OSC.setup hw0 1 100 (ticks 0) 1 1 osc_zero in
  (∀ g, OSC.resolution
          (OSC.g_state
             (state_of (OSC.setup hw num_channels samples timegap ch1_gain
                          ch2_gain g)))
        = OSC.resolution (OSC.g_state g))
  ∧ (∀ g, OSC.resolution
            (OSC.g_state
               (state_of (OSC.arm hw' trigger_channel trigger_voltage
                            trigger_dir trigger_timeout g)))
          = OSC.resolution (OSC.g_state g))
  ∧ (∀ g c, OSC.resolution (OSC.g_state (state_of (OSC.trigger hw' c g)))
            = OSC.resolution (OSC.g_state g))
  ∧ OSC.resolution (OSC.g_state started) = 0
  ∧ armed_level hw' trigger_channel trigger_voltage trigger_dir
      trigger_timeout started
    = Z.max 1 (int16_t (trigger_voltage trigger_channel gain 0))
  ∧ ADC_setup 1 ADC_RESOLUTION_10BIT ∈ calls setup10
  ∧ full_scale CHANNEL_1 1 1024 = 1024
  ∧ armed_level hw0 CHANNEL_1 full_scale EDGE_ANY 100 (state_of setup10) = 1
  ∧ armed_level hw0 CHANNEL_1 full_scale EDGE_ANY 100 (state_of setup10)
    ≠ 1023
  ∧ half_scale CHANNEL_1 1 1024 = 512
  ∧ armed_level hw0 CHANNEL_1 half_scale EDGE_ANY 100 (state_of setup10) = 1.
Proof.
  intros started gain setup10.
  assert (Hsetup : ∀ g,
    OSC.resolution
      (OSC.g_state
         (state_of (OSC.setup hw num_channels samples timegap ch1_gain
                      ch2_gain g)))
    = OSC.resolution (OSC.g_state g)).
  { intros g.
    by destruct (OSC_setup_state hw num_channels samples timegap ch1_gain
                   ch2_gain g) as (_ & Hres & _). }
  split_and!.
  - exact Hsetup.
  - intros g. by rewrite OSC_arm_state.
  - intros g c. by rewrite OSC_trigger_state_unchanged.
  - subst started. by rewrite Hsetup.
  - apply OSC_arm_level_unset. subst started. by rewrite Hsetup.
  - by apply list_elem_of_lookup_2 with 1%nat.
  - reflexivity.
  - reflexivity.
  - discriminate.
  - reflexivity.
  - reflexivity.
Qed.

(** The any-edge trigger: armed with the converter below the level, a
    sample at or above the level fires. *)
Lemma OSC_any_edge_fires (hw : Hardware) (trigger_channel : Channel)
    (trigger_voltage : OSC.Voltage) (trigger_timeout v : Z) (g : OSC.Globals) :
  let g1 := state_of (OSC.arm hw trigger_channel trigger_voltage EDGE_ANY
                        trigger_timeout g) in
  ADC_BUFFERS hw trigger_channel < OSC.level (OSC.g_trigger_state g1) →
  OSC.level (OSC.g_trigger_state g1) <= v →
  ADC_disable_interrupt ∈ calls (OSC.trigger (with_sample hw v) CHANNEL_1 g1).
Proof.
  intros g1 Hbelow Hv. rewrite OSC_trigger_run.
  assert (Hts : OSC.ready (OSC.g_trigger_state g1) = true
                ∧ OSC.polarity (OSC.g_trigger_state g1)
                  = (ADC_BUFFERS hw trigger_channel
                       <? OSC.level (OSC.g_trigger_state g1))).
  { subst g1. unfold OSC.arm. unfold_M. by cbn. }
  destruct Hts as [-> ->].
  apply Z.ltb_lt in Hbelow as ->. cbn [ADC_BUFFERS with_sample].
  apply Z.geb_le in Hv as ->.
  rewrite orb_true_r. apply elem_of_app. right. left.
Qed.

(** ... and samples that stay below the level do not fire, whatever their
    number, when the timeout is at least 1. *)
Lemma OSC_any_edge_waits (hw : Hardware) (trigger_channel : Channel)
    (trigger_voltage : OSC.Voltage) (trigger_timeout : Z) (samples : list Z)
    (g : OSC.Globals) :
  let g1 := state_of (OSC.arm hw trigger_channel trigger_voltage EDGE_ANY
                        trigger_timeout g) in
  ADC_BUFFERS hw trigger_channel < OSC.level (OSC.g_trigger_state g1) →
  1 <= trigger_timeout →
  Forall (λ v, v < OSC.level (OSC.g_trigger_state g1)) samples →
  calls (deliver hw samples g1) = [].
Proof.
  intros g1 Hbelow Hto Hs.
  assert (Hts : OSC.ready (OSC.g_trigger_state g1) = true
                ∧ OSC.polarity (OSC.g_trigger_state g1)
                  = (ADC_BUFFERS hw trigger_channel
                       <? OSC.level (OSC.g_trigger_state g1))
                ∧ OSC.waiting (OSC.g_trigger_state g1) = 0
                ∧ OSC.timeout (OSC.g_trigger_state g1) = trigger_timeout).
  { subst g1. unfold OSC.arm. unfold_M. by cbn. }
  destruct Hts as (Hr & Hp & Hw & Ht).
  induction Hs as [|v samples Hv Hs IH]; [done|].
  cbn [deliver]. rewrite bind_run. cbn [calls snd].
  rewrite OSC_trigger_state_unchanged, IH, app_nil_r.
  rewrite OSC_trigger_run, Hr, Hp, Hw, Ht. cbn [ADC_BUFFERS with_sample calls snd].
  apply Z.ltb_lt in Hbelow as ->.
  assert ((v >=? OSC.level (OSC.g_trigger_state g1)) = false) as ->
    by (rewrite Z.geb_leb; apply Z.leb_gt; lia).
  assert ((uint16_t (0 + 1) >? trigger_timeout) = false) as ->
    by (rewrite Z.gtb_ltb; apply Z.ltb_ge; exact Hto).
  reflexivity.
Qed.

(** A trigger whose [ready] flag is not set when it is armed fires on the
    timeout only, and the timeout fires only when it is below
    [waiting + 1]: no crossing of the level ever fires it. *)
Lemma OSC_trigger_not_ready (hw : Hardware) (samples : list Z)
    (g : OSC.Globals) :
  OSC.ready (OSC.g_trigger_state g) = false →
  uint16_t (OSC.waiting (OSC.g_trigger_state g) + 1)
    <= OSC.timeout (OSC.g_trigger_state g) →
  calls (deliver hw samples g) = [].
Proof.
  intros Hr Hw. induction samples as [|v samples IH]; [done|].
  cbn [deliver]. rewrite bind_run. cbn [calls snd].
  rewrite OSC_trigger_state_unchanged, IH, app_nil_r.
  rewrite OSC_trigger_run, Hr. cbn [calls snd andb].
  by rewrite orb_false_r, Z.gtb_ltb, (proj2 (Z.ltb_ge _ _) Hw).
Qed.

(** C2 (the code departs from the claim).  An any-edge trigger is armed at
    level 512 with a timeout of 2 samples while the converter reads 100.
    Three samples of 100 follow.  The claim has [waiting] at 3 and the
    timeout fire on the third sample; the code leaves [waiting] at 0 and
    calls nothing.  A falling-edge trigger armed the same way meets 900 and
    then 100: the claim has [ready] latched by the first sample and the
    trigger fire on the second; the code leaves [ready] unset and calls
    nothing. *)
Theorem OSC_trigger_keeps_no_state :
  let any := state_of (OSC.arm hw0 CHANNEL_1 (volts 512) EDGE_ANY 2 osc_1024) in
  let falling :=
    state_of (OSC.arm hw0 CHANNEL_1 (volts 512) EDGE_FALLING 10 osc_1024) in
  OSC.g_trigger_state any =
    {| OSC.channel := CHANNEL_1; OSC.level := 512; OSC.waiting := 0;
       OSC.timeout := 2; OSC.ready := true; OSC.polarity := true |}
  ∧ OSC.waiting (OSC.g_trigger_state (state_of (deliver hw0 [100; 100; 100] any)))
    = 0
  ∧ calls (deliver hw0 [100; 100; 100] any) = []
  ∧ OSC.g_trigger_state falling =
    {| OSC.channel := CHANNEL_1; OSC.level := 512; OSC.waiting := 0;
       OSC.timeout := 10; OSC.ready := false; OSC.polarity := false |}
  ∧ OSC.ready (OSC.g_trigger_state (state_of (deliver hw0 [900] falling)))
    = false
  ∧ calls (deliver hw0 [900; 100] falling) = [].
Proof. cbn zeta. split_and!; reflexivity. Qed.

(** ** Sessions of the logic analyzer *)

(** The state [LA.trigger] leaves: the pin states latched and every
    configured channel active. *)
Lemma LA_trigger_state (hw : Hardware) (c : Channel) (s : LA.LogicAnalyzerState) :
  state_of (LA.trigger hw c s) =
    LA.set_active_channels (LA.configured_channels s)
      (LA.set_initial_states (LA.PINS_la_states hw) s).
Proof.
  unfold LA.trigger, LA.trigger_case. unfold_M.
  destruct ((LA.trigger_edge s =? EDGE_RISING) || (LA.trigger_edge s =? EDGE_FALLING))
    eqn:Hdir; [|destruct (LA.trigger_edge s =? EDGE_ANY) eqn:Hany];
    destruct (LA.configured_channels s) as [|[[[]|[]|]|[[]|[]|]|]|] eqn:Hn;
    cbn; rewrite ?Hn; cbn; rewrite ?Hdir, ?Hany; reflexivity.
Qed.

(** [LA.trigger] in closed form. *)
Lemma LA_trigger_run (hw : Hardware) (c : Channel) (s : LA.LogicAnalyzerState) :
  LA.trigger hw c s =
    (tt,
     LA.set_active_channels (LA.configured_channels s)
       (LA.set_initial_states (LA.PINS_la_states hw) s),
     fire_cascade (LA.configured_channels s) (LA.capture_edge s)
       ++ [TMR5_start_fast; PINS_get_la_states; TMR_set_period LA.g_TIMER 0]
       ++ trigger_release c (LA.trigger_edge s)).
Proof.
  unfold LA.trigger, LA.trigger_case, trigger_release. unfold_M.
  destruct ((LA.trigger_edge s =? EDGE_RISING) || (LA.trigger_edge s =? EDGE_FALLING))
    eqn:Hdir; [|destruct (LA.trigger_edge s =? EDGE_ANY) eqn:Hany];
    destruct (LA.configured_channels s) as [|[[[]|[]|]|[[]|[]|]|]|] eqn:Hn;
    cbn; rewrite ?Hn; cbn; rewrite ?Hdir, ?Hany; reflexivity.
Qed.

(** [LA.arm] in closed form. *)
Lemma LA_arm_run (hw : Hardware) (channel : Channel) (edge : Edge)
    (s : LA.LogicAnalyzerState) :
  LA.arm hw channel edge s =
    if (channel =? CHANNEL_NONE) || (edge =? EDGE_NONE)
    then (tt, state_of (LA.trigger hw CHANNEL_NONE (LA.set_trigger_edge edge s)),
          TMR_set_period LA.g_TIMER 1
            :: calls (LA.trigger hw CHANNEL_NONE (LA.set_trigger_edge edge s)))
    else (tt, LA.set_trigger_edge edge s,
          TMR_set_period LA.g_TIMER 1 :: arm_wait channel edge).
Proof.
  unfold LA.arm, arm_wait. rewrite !bind_run.
  cbn [call modify result state_of calls fst snd].
  destruct ((channel =? CHANNEL_NONE) || (edge =? EDGE_NONE)).
  - rewrite LA_trigger_run. reflexivity.
  - destruct (edge =? EDGE_ANY); reflexivity.
Qed.

(** [LA.setup] for the channel counts [LA_capture] accepts. *)
Lemma LA_setup_run (hw : Hardware) (n e : Z) (edge : Edge)
    (s : LA.LogicAnalyzerState) :
  1 <= n <= 4 →
  LA.setup hw n e edge s =
    (tt,
     foldl (λ s i, LA.set_initial_address i (LA.channel_address hw i n) s)
       (LA.set_events_per_channel e
          (LA.set_capture_edge edge
             (LA.set_configured_channels n (LA.set_locked true s))))
       (seqZ 0 n),
     concat (setup_channel hw n e <$> seqZ 0 n)).
Proof.
  intros Hn.
  assert (n = 1 ∨ n = 2 ∨ n = 3 ∨ n = 4) as [-> | [-> | [-> | ->]]] by lia;
    reflexivity.
Qed.

Lemma uint16_t_range (z : Z) : 0 <= uint16_t z < 2 ^ 16.
Proof. apply Z.mod_pos_bound. lia. Qed.

Lemma uint8_t_range (z : Z) : 0 <= uint8_t z < 2 ^ 8.
Proof. apply Z.mod_pos_bound. lia. Qed.

(** An acceptable request on an unlocked instrument runs [setup] then
    [arm]. *)
Lemma LA_capture_run (hw : Hardware) (rx : LA.CaptureRequest)
    (s : LA.LogicAnalyzerState) :
  LA.locked s = false → acceptable rx →
  let s1 := state_of (LA.setup hw (rx_n rx) (rx_e rx) (rx_capture_edge rx) s) in
  LA.LA_capture hw rx s =
    (SUCCESS,
     state_of (LA.arm hw (rx_pin rx) (rx_tedge rx) s1),
     calls (LA.setup hw (rx_n rx) (rx_e rx) (rx_capture_edge rx) s)
       ++ calls (LA.arm hw (rx_pin rx) (rx_tedge rx) s1)).
Proof.
  intros Hl (Hn & Hcap & Hedge) s1. unfold LA.LA_capture.
  fold (rx_n rx) (rx_e rx) (rx_capture_edge rx) (rx_pin rx) (rx_tedge rx).
  rewrite bind_run. cbn [get result state_of calls fst snd]. rewrite Hl.
  pose proof (uint16_t_range (LA.rx_events rx)) as He. fold (rx_e rx) in He.
  assert ((rx_n rx =? 0) = false) as -> by (apply Z.eqb_neq; lia).
  assert ((rx_n rx >? CHANNEL_NUMEL) = false) as ->
    by (rewrite Z.gtb_ltb; apply Z.ltb_ge; unfold CHANNEL_NUMEL; lia).
  assert ((unsigned_int (rx_e rx * rx_n rx) >? BUFFER_SIZE) = false) as ->.
  { rewrite Z.gtb_ltb. apply Z.ltb_ge. unfold unsigned_int, uint16_t.
    unfold BUFFER_SIZE in *. rewrite Z.mod_small; nia. }
  assert ((rx_capture_edge rx =? EDGE_NONE) = false) as ->
    by (by apply Z.eqb_neq).
  rewrite !bind_run. cbn [mret M_ret result state_of calls fst snd].
  by rewrite app_nil_r.
Qed.

(** X1.  An acceptable request on an unlocked instrument is answered with
    [SUCCESS]; the instrument is then locked and holds the request (channel
    count, events per channel, both edges), and a further request, whatever
    its arguments, is answered [FAILED] and changes nothing. *)
Theorem LA_capture_accepts (hw : Hardware) (rx rx' : LA.CaptureRequest)
    (s : LA.LogicAnalyzerState) :
  LA.locked s = false → acceptable rx →
  let r := LA.LA_capture hw rx s in
  result r = SUCCESS
  ∧ LA.locked (state_of r) = true
  ∧ LA.configured_channels (state_of r) = rx_n rx
  ∧ LA.events_per_channel (state_of r) = rx_e rx
  ∧ LA.capture_edge (state_of r) = rx_capture_edge rx
  ∧ LA.trigger_edge (state_of r) = rx_tedge rx
  ∧ LA.final_progress (state_of r) = LA.final_progress s
  ∧ LA.LA_capture hw rx' (state_of r) = (FAILED, state_of r, []).
Proof.
  intros Hl Hacc r. subst r. rewrite LA_capture_run by done.
  cbn [result state_of calls fst snd].
  destruct Hacc as (Hn & _ & _).
  rewrite LA_arm_run, LA_setup_run by done.
  cbn [state_of fst snd].
  assert (Hlocked : ∀ s2, LA.locked s2 = true →
            LA.LA_capture hw rx' s2 = (FAILED, s2, [])).
  { intros s2 H2. unfold LA.LA_capture. run_M. by rewrite H2. }
  assert (rx_n rx = 1 ∨ rx_n rx = 2 ∨ rx_n rx = 3 ∨ rx_n rx = 4)
    as [-> | [-> | [-> | ->]]] by lia.
  all: destruct ((rx_pin rx =? CHANNEL_NONE) || (rx_tedge rx =? EDGE_NONE)).
  all: rewrite ?LA_trigger_run; cbn [state_of fst snd].
  all: split_and!; [reflexivity..|apply Hlocked; reflexivity].
Qed.

Lemma LA_capture_accepts_witness :
  acceptable (request 2 10 EDGE_RISING 255 255)
  ∧ result (LA.LA_capture hw0 (request 2 10 EDGE_RISING 255 255)
              LA.g_STATE_DEFAULT) = SUCCESS.
Proof.
  assert (Ha : acceptable (request 2 10 EDGE_RISING 255 255)).
  { unfold acceptable. split_and!; [vm_compute; discriminate..|].
    vm_compute. discriminate. }
  split; [exact Ha|].
  apply (LA_capture_accepts hw0 (request 2 10 EDGE_RISING 255 255)
           (request 2 10 EDGE_RISING 255 255) LA.g_STATE_DEFAULT eq_refl Ha).
Defined.

(** [LA.setup] starts neither the clock nor a DMA mover. *)
Lemma LA_setup_starts_nothing (hw : Hardware) (n e : Z) (edge : Edge)
    (s : LA.LogicAnalyzerState) :
  1 <= n <= 4 →
  existsb starts_capture (calls (LA.setup hw n e edge s)) = false.
Proof.
  intros Hn. rewrite LA_setup_run by done.
  assert (n = 1 ∨ n = 2 ∨ n = 3 ∨ n = 4) as [-> | [-> | [-> | ->]]] by lia;
    reflexivity.
Qed.

(** X2.  An accepted capture starts the clock and the DMA movers during the
    request exactly when the request names no trigger pin or no trigger
    edge; all channels are then active.  With a trigger to wait for, nothing
    is started and [active_channels] is left as it was. *)
Theorem LA_capture_fires_iff_immediate (hw : Hardware) (rx : LA.CaptureRequest)
    (s : LA.LogicAnalyzerState) :
  LA.locked s = false → acceptable rx →
  let r := LA.LA_capture hw rx s in
  existsb starts_capture (calls r) = immediate rx
  ∧ LA.active_channels (state_of r)
    = (if immediate rx then rx_n rx else LA.active_channels s)
  ∧ (immediate rx = false →
     ∃ front,
       calls r = front ++ [TMR_set_period LA.g_TIMER 1]
                   ++ arm_wait (rx_pin rx) (rx_tedge rx)).
Proof.
  intros Hl Hacc r. subst r. rewrite LA_capture_run by done.
  destruct Hacc as (Hn & _ & _).
  cbn [result state_of calls fst snd].
  rewrite existsb_app, LA_setup_starts_nothing, LA_arm_run by done.
  fold (immediate rx). rewrite LA_setup_run by done.
  cbn [state_of fst snd orb].
  destruct (immediate rx).
  - rewrite LA_trigger_run. cbn [state_of calls fst snd].
    assert (rx_n rx = 1 ∨ rx_n rx = 2 ∨ rx_n rx = 3 ∨ rx_n rx = 4)
      as [-> | [-> | [-> | ->]]] by lia;
      (split_and!; [reflexivity|reflexivity|discriminate]).
  - cbn [state_of calls fst snd]. split_and!.
    + unfold arm_wait. by destruct (rx_tedge rx =? EDGE_ANY).
    + assert (rx_n rx = 1 ∨ rx_n rx = 2 ∨ rx_n rx = 3 ∨ rx_n rx = 4)
        as [-> | [-> | [-> | ->]]] by lia; reflexivity.
    + intros _. by eexists.
Qed.

Lemma LA_capture_fires_iff_immediate_witness :
  acceptable (request 2 10 EDGE_RISING 0 EDGE_ANY)
  ∧ existsb starts_capture
      (calls (LA.LA_capture hw0 (request 2 10 EDGE_RISING 0 EDGE_ANY)
                LA.g_STATE_DEFAULT)) = false.
Proof.
  assert (Ha : acceptable (request 2 10 EDGE_RISING 0 EDGE_ANY)).
  { unfold acceptable. split_and!; [vm_compute; discriminate..|].
    vm_compute. discriminate. }
  split; [exact Ha|].
  apply (LA_capture_fires_iff_immediate hw0 (request 2 10 EDGE_RISING 0 EDGE_ANY)
           LA.g_STATE_DEFAULT eq_refl Ha).
Defined.

(** X3.  A trigger armed on a pin with one of the three edges is single
    shot: the interrupt [arm] enables (change notification for any edge,
    input capture for a rising or falling edge) is the one the fire sequence
    releases with its last call, after which every configured channel is
    active. *)
Theorem LA_trigger_is_single_shot (hw hw' : Hardware) (channel : Channel)
    (edge : Edge) (s : LA.LogicAnalyzerState) :
  channel ≠ CHANNEL_NONE →
  edge = EDGE_ANY ∨ edge = EDGE_FALLING ∨ edge = EDGE_RISING →
  let a := LA.arm hw channel edge s in
  let f := LA.trigger hw' channel (state_of a) in
  (if edge =? EDGE_ANY
   then CN_interrupt_enable channel cb_LA_trigger ∈ calls a
        ∧ last (calls f) = Some CN_reset
   else IC_interrupt_enable channel cb_LA_trigger ∈ calls a
        ∧ last (calls f) = Some (IC_interrupt_disable channel))
  ∧ LA.active_channels (state_of f) = LA.configured_channels s
  ∧ LA.locked (state_of f) = LA.locked s.
Proof.
  intros Hc He a f. subst a f. rewrite LA_arm_run.
  assert ((channel =? CHANNEL_NONE) = false) as -> by (by apply Z.eqb_neq).
  assert ((edge =? EDGE_NONE) = false) as ->
    by (apply Z.eqb_neq; unfold EDGE_NONE, EDGE_ANY, EDGE_FALLING, EDGE_RISING in *; lia).
  cbn [orb state_of calls fst snd]. rewrite LA_trigger_run.
  cbn [state_of calls fst snd]. rewrite !last_app.
  unfold arm_wait, trigger_release.
  cbn [LA.trigger_edge LA.set_trigger_edge LA.configured_channels
         LA.active_channels LA.set_active_channels LA.set_initial_states
         LA.locked].
  destruct He as [-> | [-> | ->]]; cbn; split_and!; try reflexivity.
  all: rewrite !elem_of_cons; auto.
Qed.

Lemma LA_trigger_is_single_shot_witness :
  last (calls (LA.trigger hw0 CHANNEL_2
                 (state_of (LA.arm hw0 CHANNEL_2 EDGE_FALLING (capturing 2 10)))))
  = Some (IC_interrupt_disable CHANNEL_2).
Proof.
  assert (Hc : CHANNEL_2 ≠ CHANNEL_NONE) by discriminate.
  assert (He : EDGE_FALLING = EDGE_ANY
               ∨ (EDGE_FALLING = EDGE_FALLING ∨ EDGE_FALLING = EDGE_RISING))
    by (right; left; reflexivity).
  destruct (LA_trigger_is_single_shot hw0 hw0 CHANNEL_2 EDGE_FALLING
              (capturing 2 10) Hc He) as ((_ & Hlast) & _).
  exact Hlast.
Defined.

(** The [switch] of the fire sequence calls detectors and movers only. *)
Lemma fire_cascade_calls (n : Z) (e : Edge) (x : Call) :
  x ∈ fire_cascade n e →
  match x with
  | ICx_start_fast _ _ | ICxBUF _ | DMAx_start_fast _ => True
  | _ => False
  end.
Proof.
  intros Hin. apply list_elem_of_In in Hin.
  destruct n as [|[[[]|[]|]|[[]|[]|]|]|]; cbn in Hin;
    repeat (destruct Hin as [<-|Hin]; [exact I|]); contradiction.
Qed.

(** X4.  The trigger edge of a request is not validated.  With a value that
    is none of the four edges, [arm] enables the input-capture interrupt of
    the trigger pin and the fire sequence releases nothing: its last call is
    the reset of the timer period. *)
Theorem LA_trigger_edge_unchecked (hw hw' : Hardware) (channel : Channel)
    (edge : Edge) (s : LA.LogicAnalyzerState) :
  channel ≠ CHANNEL_NONE →
  edge ≠ EDGE_NONE → edge ≠ EDGE_ANY → edge ≠ EDGE_FALLING →
  edge ≠ EDGE_RISING →
  let a := LA.arm hw channel edge s in
  let f := LA.trigger hw' channel (state_of a) in
  calls a = [TMR_set_period LA.g_TIMER 1; IC_start channel edge;
             IC_interrupt_enable channel cb_LA_trigger]
  ∧ last (calls f) = Some (TMR_set_period LA.g_TIMER 0)
  ∧ (IC_interrupt_disable channel ∉ calls f)
  ∧ (CN_reset ∉ calls f).
Proof.
  intros Hc H1 H2 H3 H4 a f. subst a f. rewrite LA_arm_run.
  apply Z.eqb_neq in Hc, H1, H2, H3, H4. rewrite Hc, H1.
  cbn [orb state_of calls fst snd]. rewrite LA_trigger_run.
  cbn [state_of calls fst snd]. unfold arm_wait, trigger_release.
  cbn [LA.trigger_edge LA.set_trigger_edge]. rewrite H2, H3, H4.
  cbn [orb]. rewrite app_nil_r.
  split_and!; [reflexivity|by rewrite last_app| |].
  all: rewrite elem_of_app, !elem_of_cons, elem_of_nil.
  all: intros [Hin|[?|[?|[?|[]]]]]; try discriminate.
  all: exact (fire_cascade_calls _ _ _ Hin).
Qed.

Lemma LA_trigger_edge_unchecked_witness :
  calls (LA.arm hw0 CHANNEL_1 5 (capturing 1 10))
  = [TMR_set_period LA.g_TIMER 1; IC_start CHANNEL_1 5;
     IC_interrupt_enable CHANNEL_1 cb_LA_trigger].
Proof.
  apply (LA_trigger_edge_unchecked hw0 hw0 CHANNEL_1 5 (capturing 1 10));
    discriminate.
Defined.

(** The fields an accepted capture leaves, for both kinds of trigger. *)
Lemma LA_capture_state (hw : Hardware)
    (rx : LA.CaptureRequest) (s : LA.LogicAnalyzerState) :
  LA.locked s = false → acceptable rx →
  let s1 := state_of (LA.LA_capture hw rx s) in
  LA.active_channels s1
  = (if immediate rx then rx_n rx else LA.active_channels s)
  ∧ LA.locked s1 = true
  ∧ LA.configured_channels s1 = rx_n rx
  ∧ LA.events_per_channel s1 = rx_e rx
  ∧ LA.final_progress s1 = LA.final_progress s.
Proof.
  intros Hl Hacc s1. subst s1. rewrite LA_capture_run by done.
  destruct Hacc as (Hn & _ & _).
  cbn [result state_of calls fst snd].
  rewrite LA_arm_run, LA_setup_run by done.
  fold (immediate rx).
  assert (rx_n rx = 1 ∨ rx_n rx = 2 ∨ rx_n rx = 3 ∨ rx_n rx = 4)
    as [-> | [-> | [-> | ->]]] by lia.
  all: destruct (immediate rx).
  all: rewrite ?LA_trigger_run; cbn [state_of fst snd].
  all: split_and!; reflexivity.
Qed.
(** The state after as many completions as there are active channels. *)
Lemma completions_finish (l : list Channel) (s : LA.LogicAnalyzerState) :
  l ≠ [] →
  LA.active_channels s = Z.of_nat (length l) →
  (length l < 256)%nat →
  let s' := state_of (completions l s) in
  LA.locked s' = false
  ∧ LA.active_channels s' = 0
  ∧ LA.configured_channels s' = LA.configured_channels s
  ∧ LA.events_per_channel s' = LA.events_per_channel s
  ∧ LA.final_progress s'
    = progress_after (LA.events_per_channel s) l (LA.final_progress s).
Proof.
  intros Hne Ha Hlen.
  destruct (exists_last Hne) as (l0 & c & ->).
  rewrite length_app in Ha, Hlen. cbn [length] in Ha, Hlen.
  destruct (completions_pending l0 s) as (Hl1 & Ha1 & Hc1 & He1 & Hf1 & _);
    [lia|].
  cbn zeta. rewrite completions_app, completions_cons. cbn [completions].
  set (s1 := state_of (completions l0 s)) in *.
  rewrite cleanup_callback_run.
  replace (LA.active_channels s1 - 1) with 0 by lia.
  change (uint8_t 0 =? 0) with true.
  cbn [mret M_ret result state_of calls fst snd].
  cbn [LA.locked LA.active_channels LA.configured_channels
         LA.events_per_channel LA.final_progress LA.set_locked
         LA.set_active_channels LA.set_final_progress].
  rewrite Hf1, He1, progress_after_snoc. by split_and!.
Qed.

(** X5.  A whole session.  An acceptable request without trigger is
    accepted on an unlocked instrument; when the completion callback has
    then run once per configured channel, in any order, the instrument is
    unlocked, no channel is active, every configured channel reports the
    requested number of events, and the next acceptable request is accepted
    again. *)
Theorem LA_session_completes (hw : Hardware) (rx rx' : LA.CaptureRequest)
    (order : list Channel) (s : LA.LogicAnalyzerState) :
  LA.locked s = false → acceptable rx → immediate rx = true →
  acceptable rx' →
  length (LA.final_progress s) = 4%nat →
  order ≡ₚ seqZ 0 (rx_n rx) →
  let s1 := state_of (LA.LA_capture hw rx s) in
  let s2 := state_of (completions order s1) in
  LA.locked s1 = true
  ∧ LA.locked s2 = false
  ∧ LA.active_channels s2 = 0
  ∧ (∀ i, 0 <= i < rx_n rx → array_get (LA.final_progress s2) i = rx_e rx)
  ∧ result (LA.LA_capture hw rx' s2) = SUCCESS.
Proof.
  intros Hl Hacc Him Hacc' Hlen Hperm. cbn zeta.
  destruct (LA_capture_state hw rx s Hl Hacc) as (Hact & Hl1 & Hc1 & He1 & Hf1).
  rewrite Him in Hact.
  assert (Hn : 1 <= rx_n rx <= 4) by apply Hacc.
  assert (Hlo : length order = Z.to_nat (rx_n rx))
    by (by rewrite Hperm, length_seqZ).
  destruct (completions_finish order (state_of (LA.LA_capture hw rx s)))
    as (Hl2 & Ha2 & Hc2 & He2 & Hf2).
  { intros ->. cbn in Hlo. lia. }
  { rewrite Hact. lia. }
  { lia. }
  split_and!; [exact Hl1|exact Hl2|exact Ha2| |].
  - intros i Hi. rewrite Hf2, He1.
    apply progress_after_elem.
    + rewrite Hperm. apply elem_of_seqZ. lia.
    + rewrite Hf1, Hlen. lia.
  - by rewrite LA_capture_run.
Qed.

Lemma LA_session_completes_witness :
  acceptable (request 2 10 EDGE_RISING 255 255)
  ∧ [1; 0] ≡ₚ seqZ 0 (rx_n (request 2 10 EDGE_RISING 255 255))
  ∧ LA.locked
      (state_of
         (completions [1; 0]
            (state_of (LA.LA_capture hw0 (request 2 10 EDGE_RISING 255 255)
                         LA.g_STATE_DEFAULT)))) = false.
Proof.
  assert (Ha : acceptable (request 2 10 EDGE_RISING 255 255)).
  { unfold acceptable. split_and!; [vm_compute; discriminate..|].
    vm_compute. discriminate. }
  assert (Hp : [1; 0] ≡ₚ seqZ 0 (rx_n (request 2 10 EDGE_RISING 255 255)))
    by apply perm_swap.
  split; [exact Ha|]. split; [exact Hp|].
  apply (LA_session_completes hw0 (request 2 10 EDGE_RISING 255 255)
           (request 2 10 EDGE_RISING 255 255) [1; 0] LA.g_STATE_DEFAULT
           eq_refl Ha eq_refl Ha eq_refl Hp).
Defined.

(** X6.  While the instrument is locked, [LA_get_progress] reports "not
    done" and, for each configured channel in turn, the count it reads from
    the DMA mover at that moment; the stored final counts are not used and
    the state is left as it is. *)
Theorem LA_get_progress_live (hw : Hardware) (s : LA.LogicAnalyzerState) :
  LA.locked s = true →
  LA.LA_get_progress hw s =
    (SUCCESS, s,
     UART1_Write (LA.configured_channels s) :: UART1_Write 0 ::
       concat ((λ i, [DMA_get_progress i; UART1_WriteInt (DMA_progress hw i)])
                 <$> seqZ 0 (LA.configured_channels s)))
  ∧ sent_words (calls (LA.LA_get_progress hw s))
    = DMA_progress hw <$> seqZ 0 (LA.configured_channels s).
Proof.
  intros Hl.
  assert (Hrun : LA.LA_get_progress hw s =
    (SUCCESS, s,
     UART1_Write (LA.configured_channels s) :: UART1_Write 0 ::
       concat ((λ i, [DMA_get_progress i; UART1_WriteInt (DMA_progress hw i)])
                 <$> seqZ 0 (LA.configured_channels s)))).
  { unfold LA.LA_get_progress.
    rewrite bind_run. cbn [get result state_of calls fst snd].
    rewrite !bind_run, Hl. cbn [call negb result state_of calls fst snd].
    rewrite (for_loop_pure _
               (λ i, [DMA_get_progress i; UART1_WriteInt (DMA_progress hw i)])).
    2: { intros i. by run_M. }
    cbn. by rewrite seqZ_of_to_nat, app_nil_r. }
  split; [exact Hrun|]. rewrite Hrun. cbn [calls snd sent_words omap].
  generalize (seqZ 0 (LA.configured_channels s)). intros l.
  induction l as [|i l IH]; [done|]. cbn.
  fold (sent_words (concat
    ((λ i, [DMA_get_progress i; UART1_WriteInt (DMA_progress hw i)]) <$> l))).
  cbn in IH. by rewrite IH.
Qed.

Lemma LA_get_progress_live_witness :
  sent_words (calls (LA.LA_get_progress hw0 (capturing 2 10))) = [7; 8].
Proof.
  apply (LA_get_progress_live hw0 (capturing 2 10)). reflexivity.
Defined.

(** X7.  Whatever the state, a capture request that follows [LA_stop] is
    never answered [FAILED]: [LA_stop] always leaves the instrument
    unlocked. *)
Theorem LA_capture_after_stop (hw hw' : Hardware) (rx : LA.CaptureRequest)
    (s : LA.LogicAnalyzerState) :
  LA.locked (state_of (LA.LA_stop hw' s)) = false
  ∧ result (LA.LA_capture hw rx (state_of (LA.LA_stop hw' s))) ≠ FAILED.
Proof.
  assert (Hu : LA.locked (state_of (LA.LA_stop hw' s)) = false).
  { unfold LA.LA_stop. unfold_M. destruct (LA.locked s) eqn:Hl; cbn; done. }
  split; [exact Hu|].
  unfold LA.LA_capture. rewrite bind_run.
  cbn [get result state_of calls fst snd]. rewrite Hu.
  repeat (step_if; [discriminate|]).
  rewrite !bind_run. cbn. discriminate.
Qed.

Lemma sent_words_cons (w : Z) (t : list Call) :
  sent_words (UART1_WriteInt w :: t) = w :: sent_words t.
Proof. reflexivity. Qed.

(** Decoding the deltas of the inner loop, from any iteration and any
    previous timestamp. *)
Lemma decode_send_timedeltas (hw : Hardware) (address : Z)
    (s : LA.LogicAnalyzerState) (n : nat) :
  ∀ j previous,
    decode_deltas (uint16_t previous)
      (sent_words (calls (LA.send_timedeltas hw n j address previous s)))
    = (λ k, uint16_t (mem hw (ptr_add address k))) <$> seqZ j (Z.of_nat n).
Proof.
  induction n as [|n IH]; intros j previous; [done|].
  cbn [LA.send_timedeltas]. rewrite bind_run.
  cbn [call result state_of calls fst snd app].
  rewrite sent_words_cons. cbn [decode_deltas].
  rewrite (seqZ_cons j) by lia. cbn [fmap list_fmap].
  replace (Z.pred (Z.of_nat (S n))) with (Z.of_nat n) by lia.
  assert (Hd : uint16_t (uint16_t previous
                          + uint16_t (mem hw (ptr_add address j) - previous))
               = uint16_t (mem hw (ptr_add address j))).
  { unfold uint16_t. rewrite <- Zplus_mod. f_equal. lia. }
  rewrite Hd. f_equal. apply IH.
Qed.

(** X8.  The deltas [LA_get_timestamps] sends for a channel decode back to
    the raw timestamps: the running sum of the deltas, modulo 2^16, is the
    sequence of the captured values, whether or not the capture clock
    wrapped between two events. *)
Theorem LA_timedeltas_decode (hw : Hardware) (address : Z) (n : nat)
    (s : LA.LogicAnalyzerState) :
  decode_deltas 0
    (sent_words (calls (LA.send_timedeltas hw n 0 address 0 s)))
  = (λ j, uint16_t (mem hw (ptr_add address j))) <$> seqZ 0 (Z.of_nat n).
Proof. exact (decode_send_timedeltas hw address s n 0 0). Qed.

(** X9.  The completion callback releases the clock and unlocks exactly
    when one channel was active; with none active the 8-bit counter wraps
    to 255 and nothing is released. *)
Theorem LA_cleanup_unlocks_iff_last (c : Channel) (s : LA.LogicAnalyzerState) :
  0 <= LA.active_channels s < 2 ^ 8 →
  let r := LA.cleanup_callback c s in
  (TMR_reset LA.g_TIMER ∈ calls r ↔ LA.active_channels s = 1)
  ∧ (LA.locked (state_of r)
     = if LA.active_channels s =? 1 then false else LA.locked s)
  ∧ (LA.active_channels s = 0 → LA.active_channels (state_of r) = 255).
Proof.
  intros Ha r. subst r. rewrite cleanup_callback_run.
  cbn [state_of calls fst snd].
  destruct (Z.eqb_spec (LA.active_channels s) 1) as [H1|H1].
  - rewrite H1. change (uint8_t (1 - 1) =? 0) with true. cbn [LA.locked LA.set_locked].
    split_and!; [|reflexivity|discriminate].
    split; [done|intros _]. rewrite !elem_of_cons. auto.
  - assert (Hw : uint8_t (LA.active_channels s - 1) ≠ 0).
    { unfold uint8_t. destruct (Z.eq_dec (LA.active_channels s) 0) as [E|E].
      - rewrite E. discriminate.
      - rewrite Z.mod_small; lia. }
    apply Z.eqb_neq in Hw. rewrite Hw.
    split_and!; [|reflexivity|intros E; rewrite E; reflexivity].
    split; [|done]. rewrite !elem_of_cons, elem_of_nil.
    intros [?|[?|[]]]; discriminate.
Qed.

Lemma LA_cleanup_unlocks_iff_last_witness :
  LA.locked (state_of (LA.cleanup_callback 0 (capturing 1 10))) = false.
Proof.
  assert (H : 0 <= LA.active_channels (capturing 1 10) < 2 ^ 8)
    by (cbn; lia).
  destruct (LA_cleanup_unlocks_iff_last 0 (capturing 1 10) H) as (_ & Hl & _).
  exact Hl.
Defined.

(** ** Extras on the oscilloscope *)

(** The loop of [OSC.setup] divides by 8 until the period fits 16 bits and
    counts the divisions in the prescaler; it stops at the first power of 8
    that is enough. *)
Lemma scale_delay_steps (prescaler delay : Z) :
  0 <= delay →
  ∃ k : nat,
    OSC.scale_delay prescaler delay
      = (prescaler + Z.of_nat k, delay / 8 ^ Z.of_nat k)
    ∧ 0 <= delay / 8 ^ Z.of_nat k <= UINT16_MAX
    ∧ (∀ j : nat, (j < k)%nat → delay / 8 ^ Z.of_nat j > UINT16_MAX).
Proof.
  funelim (OSC.scale_delay prescaler delay); intros Hd.
  - destruct (H ltac:(apply Z.div_pos; lia)) as (k & Hk & Hfit & Hmin).
    exists (S k). rewrite Hk.
    assert (Hpow : delay / 8 / 8 ^ Z.of_nat k = delay / 8 ^ Z.of_nat (S k)).
    { rewrite Z.div_div by lia. f_equal.
      rewrite Nat2Z.inj_succ, Z.pow_succ_r by lia. reflexivity. }
    rewrite Hpow in *. split_and!; [f_equal; lia|lia|lia|].
    intros [|j] Hj.
    + rewrite Z.pow_0_r, Z.div_1_r. exact g.
    + specialize (Hmin j ltac:(lia)).
      rewrite Nat2Z.inj_succ, Z.pow_succ_r, <- Z.div_div by lia. exact Hmin.
  - exists 0%nat. rewrite Z.pow_0_r, Z.div_1_r, Z.add_0_r.
    split_and!; [reflexivity|lia|lia|]. intros j Hj. lia.
Qed.

(** X10.  [OSC.setup] resets, configures and starts the converter, with 12
    bits only for a slow interval on a single channel, and then programs
    the clock: the period is the 32-bit tick count divided by 8 as often as
    it takes, at most six times, to fit the 16-bit register, so the cast to
    [uint16_t] never truncates it, and the prescaler is the number of
    divisions. *)
Theorem OSC_setup_clock (hw : Hardware) (num_channels samples : Z)
    (timegap : OSC.Timegap) (ch1_gain ch2_gain : Z) (g : OSC.Globals) :
  let t := uint32_t (OSC.timegap_ticks timegap) in
  ∃ k : nat,
    (k <= 6)%nat
    ∧ take 6 (calls (OSC.setup hw num_channels samples timegap ch1_gain
                       ch2_gain g))
      = [ADC_reset;
         ADC_setup num_channels
           (if OSC.timegap_slow timegap && (num_channels =? 1)
            then ADC_RESOLUTION_12BIT else ADC_RESOLUTION_10BIT);
         ADC_start;
         TMR_reset OSC.g_TIMER;
         TMR_set_prescaler OSC.g_TIMER (Z.of_nat k);
         TMR_set_period OSC.g_TIMER (t / 8 ^ Z.of_nat k)]
    ∧ 0 <= t / 8 ^ Z.of_nat k <= UINT16_MAX
    ∧ (∀ j : nat, (j < k)%nat → t / 8 ^ Z.of_nat j > UINT16_MAX).
Proof.
  intros t.
  assert (Ht : 0 <= t < 2 ^ 32) by (apply Z.mod_pos_bound; lia).
  destruct (scale_delay_steps TMR_PRESCALER_1 t) as (k & Hk & Hfit & Hmin);
    [lia|].
  exists k.
  assert (Hk6 : (k <= 6)%nat).
  { destruct (le_lt_dec k 6) as [|Hgt]; [done|exfalso].
    specialize (Hmin 6%nat Hgt). unfold UINT16_MAX in Hmin.
    assert (t / 8 ^ Z.of_nat 6 < 2 ^ 14)
      by (apply Z.div_lt_upper_bound; [lia|]; change (8 ^ Z.of_nat 6) with (2 ^ 18); lia).
    lia. }
  split; [exact Hk6|]. split; [|split; [exact Hfit|exact Hmin]].
  unfold OSC.setup. cbv zeta. fold t. rewrite Hk.
  unfold_M. cbn.
  erewrite for_loop_pure; [|intros i; reflexivity].
  cbn. unfold uint16_t. rewrite Z.mod_small by (unfold UINT16_MAX in Hfit; lia).
  reflexivity.
Qed.

(** X11.  For a rising and for a falling trigger [OSC.arm] stores the same
    trigger state: the direction does not enter the polarity, which is the
    outcome of comparing the address of [trigger] with [EDGE_RISING], and
    [ready] is left unset. *)
Theorem OSC_arm_direction_ignored (hw : Hardware) (trigger_channel : Channel)
    (trigger_voltage : OSC.Voltage) (trigger_timeout : Z) (g : OSC.Globals) :
  let rising := state_of (OSC.arm hw trigger_channel trigger_voltage
                            EDGE_RISING trigger_timeout g) in
  let falling := state_of (OSC.arm hw trigger_channel trigger_voltage
                             EDGE_FALLING trigger_timeout g) in
  rising = falling
  ∧ OSC.ready (OSC.g_trigger_state rising) = false
  ∧ OSC.polarity (OSC.g_trigger_state rising) = (fn_trigger hw =? EDGE_RISING)
  ∧ OSC.waiting (OSC.g_trigger_state rising) = 0
  ∧ OSC.timeout (OSC.g_trigger_state rising) = trigger_timeout.
Proof. cbn zeta. split_and!; reflexivity. Qed.

(** X12.  A directed trigger armed with a timeout of at least one sample
    never fires: whatever samples follow, no DMA mover is started and the
    sample interrupt is never disabled. *)
Theorem OSC_directed_trigger_never_fires (hw hw' : Hardware)
    (trigger_channel : Channel) (trigger_voltage : OSC.Voltage)
    (trigger_dir : Edge) (trigger_timeout : Z) (samples : list Z)
    (g : OSC.Globals) :
  trigger_dir ≠ EDGE_ANY → 1 <= trigger_timeout →
  calls (deliver hw' samples
           (state_of (OSC.arm hw trigger_channel trigger_voltage trigger_dir
                        trigger_timeout g))) = [].
Proof.
  intros Hdir Hto. apply OSC_trigger_not_ready.
  - unfold OSC.arm. unfold_M. cbn.
    apply Z.eqb_neq in Hdir. by rewrite Hdir.
  - unfold OSC.arm. unfold_M. cbn.
    apply Z.eqb_neq in Hdir. rewrite Hdir. cbn. exact Hto.
Qed.

Lemma OSC_directed_trigger_never_fires_witness :
  calls (deliver hw0 [0; 1000; 0; 1000]
           (state_of (OSC.arm hw0 CHANNEL_1 (volts 512) EDGE_RISING 5
                        osc_1024))) = [].
Proof.
  apply (OSC_directed_trigger_never_fires hw0 hw0 CHANNEL_1 (volts 512)
           EDGE_RISING 5 [0; 1000; 0; 1000] osc_1024); [discriminate|lia].
Defined.

(** X13.  An any-edge trigger fires on a sample exactly when the sample lies
    on the other side of the stored level than the converter did when the
    trigger was armed, or when the timeout is 0. *)
Theorem OSC_any_edge_fires_iff (hw : Hardware) (trigger_channel : Channel)
    (trigger_voltage : OSC.Voltage) (trigger_timeout v : Z) (g : OSC.Globals) :
  let g1 := state_of (OSC.arm hw trigger_channel trigger_voltage EDGE_ANY
                        trigger_timeout g) in
  let l := OSC.level (OSC.g_trigger_state g1) in
  let before := ADC_BUFFERS hw trigger_channel in
  ADC_disable_interrupt ∈ calls (OSC.trigger (with_sample hw v) CHANNEL_1 g1)
  ↔ trigger_timeout < 1 ∨ (before < l ∧ l <= v) ∨ (l <= before ∧ v < l).
Proof.
  intros g1 l before. rewrite OSC_trigger_run.
  assert (Hts : OSC.ready (OSC.g_trigger_state g1) = true
                ∧ OSC.polarity (OSC.g_trigger_state g1) = (before <? l)
                ∧ OSC.waiting (OSC.g_trigger_state g1) = 0
                ∧ OSC.timeout (OSC.g_trigger_state g1) = trigger_timeout).
  { subst g1 l before. unfold OSC.arm. unfold_M. by cbn. }
  destruct Hts as (-> & -> & -> & ->). fold l.
  cbn [ADC_BUFFERS with_sample calls snd andb].
  change (uint16_t (0 + 1)) with 1.
  destruct (Z.gtb_spec 1 trigger_timeout), (Z.ltb_spec before l),
    (Z.geb_spec v l); cbn [orb eqb].
  all: try (split; [intros _; lia|intros _; apply elem_of_app; right; left]).
  all: split; [intros Hnil%elem_of_nil; done|lia].
Qed.

(** ** Extras on the register accessors *)

Lemma testbit_uint16_t (z i : Z) :
  0 <= i →
  Z.testbit (uint16_t z) i = (i <? 16) && Z.testbit z i.
Proof.
  intros Hi. unfold uint16_t. destruct (Z.ltb_spec i 16).
  - by rewrite Z.mod_pow2_bits_low by lia.
  - by rewrite Z.mod_pow2_bits_high by lia.
Qed.

Lemma testbit_small (z n i : Z) :
  0 <= z < 2 ^ n → 0 <= n <= i → Z.testbit z i = false.
Proof.
  intros Hz Hi. rewrite <- (Z.mod_small z (2 ^ n)) by lia.
  apply Z.mod_pow2_bits_high. lia.
Qed.

Lemma testbit_7 (i : Z) : 0 <= i → Z.testbit 7 i = (i <? 3).
Proof.
  intros Hi. change 7 with (Z.ones 3). destruct (Z.ltb_spec i 3).
  - apply Z.ones_spec_low. lia.
  - apply Z.ones_spec_high. lia.
Qed.

(** X14.  [ICx_start_fast] writes the capture mode [edge + 1] into the three
    low bits of [ICxCON1] and keeps every other bit of the register; for
    [EDGE_NONE] the mode is 0, which turns the module off. *)
Theorem ICx_start_fast_sets_mode (ICxCON1 : Z) (edge : Edge) :
  0 <= ICxCON1 < 2 ^ 16 → EDGE_NONE <= edge <= 6 →
  let r := REG.ICx_start_fast ICxCON1 edge in
  Z.land r 7 = edge + 1
  ∧ (∀ i, 3 <= i → Z.testbit r i = Z.testbit ICxCON1 i)
  ∧ 0 <= r < 2 ^ 16.
Proof.
  intros Hreg Hedge r. unfold EDGE_NONE in Hedge.
  assert (Hicm : uint16_t (edge + 1) = edge + 1)
    by (apply Z.mod_small; lia).
  assert (Hbits : ∀ i, 0 <= i →
            Z.testbit r i
            = if i <? 3 then Z.testbit (edge + 1) i else Z.testbit ICxCON1 i).
  { intros i Hi. subst r. unfold REG.ICx_start_fast.
    rewrite Hicm, testbit_uint16_t, Z.lor_spec, Z.land_spec by done.
    rewrite testbit_uint16_t, Z.lnot_spec, testbit_7 by done.
    destruct (Z.ltb_spec i 3).
    - assert ((i <? 16) = true) as -> by (apply Z.ltb_lt; lia).
      cbn. by rewrite andb_false_r.
    - rewrite (testbit_small (edge + 1) 3 i) by lia.
      destruct (Z.ltb_spec i 16); cbn.
      + by rewrite andb_true_r, orb_false_r.
      + symmetry. apply (testbit_small _ 16); lia. }
  split_and!.
  - apply Z.bits_inj'. intros i Hi.
    rewrite Z.land_spec, Hbits, testbit_7 by done.
    destruct (Z.ltb_spec i 3); [by rewrite andb_true_r|].
    rewrite andb_false_r. symmetry. apply (testbit_small _ 3); lia.
  - intros i Hi. rewrite Hbits by lia.
    by assert ((i <? 3) = false) as -> by (apply Z.ltb_ge; lia).
  - apply Z.mod_pos_bound. lia.
  - apply Z.mod_pos_bound. lia.
Qed.

Lemma ICx_start_fast_sets_mode_witness :
  Z.land (REG.ICx_start_fast 0xABC5 EDGE_RISING) 7 = 3.
Proof.
  apply (ICx_start_fast_sets_mode 0xABC5 EDGE_RISING);
    unfold EDGE_NONE, EDGE_RISING; lia.
Defined.

(** X15.  [TMR5_start_fast] and [DMAx_start_fast] set bit 15 of their
    control register and keep the other fifteen; applied to a register that
    is already started they change nothing. *)
Theorem start_fast_sets_bit_15 (reg : Z) :
  0 <= reg < 2 ^ 16 →
  let r := REG.start_fast reg in
  Z.testbit r 15 = true
  ∧ (∀ i, i ≠ 15 → Z.testbit r i = Z.testbit reg i)
  ∧ REG.start_fast r = r.
Proof.
  intros Hreg r.
  assert (Hbits : ∀ x i, 0 <= x < 2 ^ 16 → 0 <= i →
            Z.testbit (REG.start_fast x) i = (i =? 15) || Z.testbit x i).
  { intros x i Hx Hi. unfold REG.start_fast.
    change (unsigned_int (int (Z.shiftl 1 15))) with (2 ^ 15).
    rewrite testbit_uint16_t, Z.lor_spec, Z.pow2_bits_eqb by lia.
    destruct (Z.ltb_spec i 16); cbn.
    - by rewrite orb_comm, Z.eqb_sym.
    - rewrite (testbit_small x 16 i) by lia.
      symmetry. apply orb_false_intro; [apply Z.eqb_neq; lia|done]. }
  assert (Hr : 0 <= r < 2 ^ 16) by (apply Z.mod_pos_bound; lia).
  split_and!.
  - unfold r. by rewrite Hbits by lia.
  - intros i Hi. destruct (Z.le_gt_cases 0 i).
    + unfold r. rewrite Hbits by lia. by apply Z.eqb_neq in Hi as ->.
    + by rewrite !Z.testbit_neg_r by lia.
  - apply Z.bits_inj'. intros i Hi. rewrite (Hbits r) by lia. unfold r.
    rewrite Hbits by lia. by destruct (i =? 15).
Qed.

Lemma start_fast_sets_bit_15_witness :
  Z.testbit (REG.start_fast 0x0010) 15 = true.
Proof.
  apply (start_fast_sets_bit_15 0x0010). lia.
Defined.

(** X16.  [PINS_get_la_states] returns a nibble whose bit [k] is bit
    [10 + k] of [PORTB]: LA1 to LA4 are the port pins 10 to 13. *)
Theorem PINS_la_states_nibble (hw : Hardware) :
  0 <= LA.PINS_la_states hw < 16
  ∧ (∀ k, 0 <= k < 4 →
       Z.testbit (LA.PINS_la_states hw) k = Z.testbit (PORTB hw) (10 + k)).
Proof.
  unfold LA.PINS_la_states. split.
  - change 15 with (Z.ones 4). rewrite Z.land_ones by lia.
    apply Z.mod_pos_bound. lia.
  - intros k Hk. change 15 with (Z.ones 4).
    rewrite Z.land_spec, Z.shiftr_spec, Z.ones_spec_low by lia.
    rewrite andb_true_r. f_equal. lia.
Qed.

(** ** Extras on the sample buffer commands *)

Lemma P_bind_run {A B} (m : CMD.P A) (k : A → CMD.P B) (w : CMD.World) :
  (m ≫= k) w =
    ((k (m w).1.1 (m w).1.2).1.1,
     (k (m w).1.1 (m w).1.2).1.2,
     (m w).2 ++ (k (m w).1.1 (m w).1.2).2).
Proof.
  unfold mbind, CMD.P_bind.
  destruct (m w) as [[a w1] t1]; cbn.
  destruct (k a w1) as [[b w2] t2]; reflexivity.
Qed.

Lemma ptr_add_inj (p i j : Z) : ptr_add p i = ptr_add p j → i = j.
Proof. unfold ptr_add. lia. Qed.

(** [BUFFER_send] sends the [size] words that start at [start] between the
    two LED calls and changes nothing. *)
Lemma BUFFER_send_run (start size : Z) (w : CMD.World) :
  CMD.BUFFER_send start size w =
    (tt, w,
     CMD.LED_SetLow ::
       ((λ i, CMD.UART1_WriteInt (CMD.memory w (ptr_add start i)))
          <$> seqZ 0 size) ++ [CMD.LED_SetHigh]).
Proof.
  unfold CMD.BUFFER_send. rewrite !P_bind_run. cbn [CMD.emit fst snd].
  assert (Hloop : ∀ n i,
    CMD.loop n i (λ i, v ← CMD.load (ptr_add start i);
                       CMD.emit (CMD.UART1_WriteInt v)) w
    = (tt, w, (λ i, CMD.UART1_WriteInt (CMD.memory w (ptr_add start i)))
                <$> seqZ i (Z.of_nat n))).
  { induction n as [|n IH]; intros i; [done|].
    cbn [CMD.loop]. rewrite !P_bind_run. cbn [CMD.load CMD.emit fst snd].
    rewrite IH. cbn [fst snd]. rewrite (seqZ_cons i) by lia. cbn.
    by replace (Z.pred (Z.of_nat (S n))) with (Z.of_nat n) by lia. }
  rewrite Hloop. cbn [fst snd]. by rewrite seqZ_of_to_nat.
Qed.

(** The loop of [BUFFER_Fill]: [n] reads go to the [n] words from [i]. *)
Lemma BUFFER_Fill_loop (h : CMD.Host) (n : nat) :
  ∀ (i : Z) (w : CMD.World),
    let r := CMD.loop n i (λ i, v ← CMD.UART1_ReadInt h;
                                CMD.store (ptr_add (CMD.BUFFER h) i) v) w in
    r.2 = []
    ∧ CMD.rx_count r.1.2 = (CMD.rx_count w + n)%nat
    ∧ (∀ k : nat, (k < n)%nat →
         buffer_word h r.1.2 (i + Z.of_nat k) = rx_word h (CMD.rx_count w + k))
    ∧ (∀ a, (∀ k : nat, (k < n)%nat →
               a ≠ ptr_add (CMD.BUFFER h) (i + Z.of_nat k)) →
         CMD.memory r.1.2 a = CMD.memory w a).
Proof.
  induction n as [|n IH]; intros i w.
  - cbn. split_and!; [done|lia|intros; lia|done].
  - cbn [CMD.loop]. cbn zeta. rewrite !P_bind_run.
    cbn [CMD.UART1_ReadInt CMD.store CMD.update fst snd app].
    set (w1 := CMD.set_memory _ _).
    destruct (IH (i + 1) w1) as (Ht & Hc & Hin & Hout).
    split_and!.
    + exact Ht.
    + rewrite Hc. cbn. lia.
    + intros [|k] Hk.
      * unfold buffer_word. rewrite Hout.
        -- cbn. rewrite Z.add_0_r, Z.eqb_refl, Nat.add_0_r. reflexivity.
        -- intros k' _ E. apply ptr_add_inj in E. lia.
      * replace (i + Z.of_nat (S k)) with (i + 1 + Z.of_nat k) by lia.
        rewrite Hin by lia. cbn. f_equal. lia.
    + intros a Ha. rewrite Hout.
      * cbn. destruct (Z.eqb_spec a (ptr_add (CMD.BUFFER h) i)) as [E|]; [|done].
        exfalso. apply (Ha 0%nat); [lia|]. by rewrite Z.add_0_r.
      * intros k Hk. replace (i + 1 + Z.of_nat k) with (i + Z.of_nat (S k)) by lia.
        apply Ha. lia.
Qed.

(** [BUFFER_Fill] is its loop after two reads. *)
Lemma BUFFER_Fill_run (h : CMD.Host) (w : CMD.World) :
  let start := rx_word h (CMD.rx_count w) in
  let count := rx_word h (S (CMD.rx_count w)) in
  let r := CMD.loop (Z.to_nat (unsigned_int (start + count) - start)) start
             (λ i, v ← CMD.UART1_ReadInt h;
                   CMD.store (ptr_add (CMD.BUFFER h) i) v)
             (CMD.set_rx_count (S (S (CMD.rx_count w))) w) in
  CMD.BUFFER_Fill h w = (SUCCESS, r.1.2, r.2).
Proof.
  cbn zeta. unfold CMD.BUFFER_Fill. rewrite !P_bind_run.
  cbn [CMD.UART1_ReadInt CMD.rx_count CMD.set_rx_count mret CMD.P_ret
         fst snd app].
  by rewrite app_nil_r.
Qed.

(** When [start + count] fits 16 bits, [BUFFER_Fill] reads [count] further
    words and stores them in the buffer words from [start] on. *)
Lemma BUFFER_Fill_fits (h : CMD.Host) (w : CMD.World) :
  let c := CMD.rx_count w in
  let start := rx_word h c in
  let count := rx_word h (S c) in
  let r := CMD.BUFFER_Fill h w in
  start + count < 2 ^ 16 →
  CMD.rx_count r.1.2 = (c + 2 + Z.to_nat count)%nat
  ∧ (∀ k : nat, Z.of_nat k < count →
       buffer_word h r.1.2 (start + Z.of_nat k) = rx_word h (c + 2 + k))
  ∧ (∀ a, (∀ k, 0 <= k < count → a ≠ ptr_add (CMD.BUFFER h) (start + k)) →
       CMD.memory r.1.2 a = CMD.memory w a).
Proof.
  intros c start count r Hfit. subst r. rewrite BUFFER_Fill_run.
  fold c. fold start. fold count.
  pose proof (uint16_t_range (CMD.rx h c)) as Hs. fold (rx_word h c) in Hs.
  fold start in Hs.
  pose proof (uint16_t_range (CMD.rx h (S c))) as Hn.
  fold (rx_word h (S c)) in Hn. fold count in Hn.
  set (n := Z.to_nat (unsigned_int (start + count) - start)).
  destruct (BUFFER_Fill_loop h n start
              (CMD.set_rx_count (S (S c)) w)) as (Ht & Hc & Hin & Hout).
  cbn [fst snd]. cbn [CMD.rx_count CMD.set_rx_count] in Hc, Hin.
  assert (Hcount : n = Z.to_nat count).
  { subst n. unfold unsigned_int, uint16_t. rewrite Z.mod_small by lia.
    f_equal. lia. }
  split_and!.
  - rewrite Hc, Hcount. lia.
  - intros k Hk. rewrite Hin by lia. f_equal. lia.
  - intros a Ha. rewrite Hout; [reflexivity|].
    intros k Hk. apply Ha. lia.
Qed.


(** X18.  What [BUFFER_Fill] stored, [BUFFER_Retrieve] sends back: after
    filling [count] words from [start] inside the buffer, a retrieve request
    for the same range sends exactly the words the fill received, in their
    order, between [LED_SetLow] and [LED_SetHigh]. *)
Theorem BUFFER_Fill_Retrieve (h : CMD.Host) (w : CMD.World) (start count : Z) :
  let c := CMD.rx_count w in
  let n := Z.to_nat count in
  0 <= start → 0 <= count → start + count <= BUFFER_SIZE →
  rx_word h c = start → rx_word h (S c) = count →
  rx_word h (c + 2 + n) = start → rx_word h (c + 3 + n) = count →
  let filled := (CMD.BUFFER_Fill h w).1.2 in
  let r := CMD.BUFFER_Retrieve h filled in
  r.1.1 = SUCCESS
  ∧ r.2 = CMD.LED_SetLow ::
            ((λ k : nat, CMD.UART1_WriteInt (rx_word h (c + 2 + k)))
               <$> seq 0 n)
            ++ [CMD.LED_SetHigh]
  ∧ CMD.memory r.1.2 = CMD.memory filled.
Proof.
  intros c n Hs Hn Hcap Hrs Hrn Hrs' Hrn'. cbn zeta.
  pose proof (BUFFER_Fill_fits h w) as Hfit. cbn zeta in Hfit.
  fold c in Hfit. rewrite Hrs, Hrn in Hfit. fold n in Hfit.
  destruct Hfit as (Hc & Hin & _); [unfold BUFFER_SIZE in Hcap; lia|].
  set (filled := (CMD.BUFFER_Fill h w).1.2) in *.
  unfold CMD.BUFFER_Retrieve. rewrite !P_bind_run.
  cbn [CMD.UART1_ReadInt CMD.rx_count CMD.set_rx_count fst snd app].
  rewrite Hc. fold (rx_word h (c + 2 + n)) (rx_word h (S (c + 2 + n))).
  replace (S (c + 2 + n)) with (c + 3 + n)%nat by lia.
  rewrite Hrs', Hrn'.
  assert (Hsize : uint16_t (int ((ptr_add (ptr_add (CMD.BUFFER h) start) count
                                  - ptr_add (CMD.BUFFER h) start) / 2)) = count).
  { unfold ptr_add.
    replace (CMD.BUFFER h + 2 * start + 2 * count - (CMD.BUFFER h + 2 * start))
      with (count * 2) by lia.
    rewrite Z.div_mul by lia. unfold int, int16_t, uint16_t.
    unfold BUFFER_SIZE in Hcap.
    rewrite (Z.mod_small (count + 2 ^ 15)) by lia.
    rewrite Z.mod_small by lia. lia. }
  rewrite Hsize, BUFFER_send_run.
  cbn [mret CMD.P_ret fst snd]. rewrite app_nil_r.
  split_and!; [reflexivity| |reflexivity].
  do 2 f_equal. unfold seqZ. fold n.
  rewrite <- list_fmap_compose.
  apply list_fmap_ext. intros i k Hk.
  apply lookup_seq in Hk as [-> Hk].
  cbn [compose CMD.memory CMD.set_rx_count Nat.add].
  replace (ptr_add (ptr_add (CMD.BUFFER h) start) (Z.of_nat i + 0))
    with (ptr_add (CMD.BUFFER h) (start + Z.of_nat i)) by (unfold ptr_add; lia).
  specialize (Hin i ltac:(lia)). unfold buffer_word in Hin. by rewrite Hin.
Qed.

Lemma BUFFER_Fill_Retrieve_witness :
  io_words (CMD.BUFFER_Retrieve host0 (CMD.BUFFER_Fill host0 world0).1.2).2
  = [11; 22].
Proof.
  destruct (BUFFER_Fill_Retrieve host0 world0 3 2) as (_ & Ht & _);
    [lia|lia|unfold BUFFER_SIZE; lia|reflexivity..|].
  rewrite Ht. reflexivity.
Defined.


(** The words [memset] clears and the words it keeps, for a fill byte
    of 0. *)
Lemma memset_zero_words (p n : Z) (m : Z → Z) (k : Z) :
  0 <= k →
  (2 * k + 2 <= n → CMD.memset p 0 n m (ptr_add p k) = 0)
  ∧ (n <= 2 * k → CMD.memset p 0 n m (ptr_add p k) = m (ptr_add p k)).
Proof.
  intros Hk. unfold CMD.memset, ptr_add. change (uint8_t 0) with 0.
  split; intros Hn.
  - assert (((p <=? p + 2 * k) && (p + 2 * k + 1 <? p + n)) = true) as ->;
      [|reflexivity].
    apply andb_true_intro. split; [apply Z.leb_le|apply Z.ltb_lt]; lia.
  - assert ((p + 2 * k + 1 <? p + n) = false) as -> by (apply Z.ltb_ge; lia).
    assert ((p + 2 * k <? p + n) = false) as -> by (apply Z.ltb_ge; lia).
    by rewrite !andb_false_r.
Qed.

(** X19.  [BUFFER_set], with which [LA.setup] clears a channel's region,
    counts [size] in bytes: with value 0 it zeroes the words whose two bytes
    lie below [start + size] and keeps every word from byte [size] on, so
    of a region of [size] words the upper half keeps its contents. *)
Theorem BUFFER_set_counts_bytes (start size : Z) (w : CMD.World) (k : Z) :
  0 <= k →
  let r := CMD.BUFFER_set start 0 size w in
  r.1.1 = start ∧ r.2 = []
  ∧ (2 * k + 2 <= size → CMD.memory r.1.2 (ptr_add start k) = 0)
  ∧ (size <= 2 * k →
     CMD.memory r.1.2 (ptr_add start k) = CMD.memory w (ptr_add start k)).
Proof.
  intros Hk. cbn zeta. unfold CMD.BUFFER_set. rewrite P_bind_run.
  cbn [CMD.update mret CMD.P_ret fst snd app CMD.memory CMD.set_memory].
  destruct (memset_zero_words start size (CMD.memory w) k Hk) as [H0 H1].
  by split_and!.
Qed.

Lemma BUFFER_set_counts_bytes_witness :
  CMD.memory (CMD.BUFFER_set 4096 0 10 world0).1.2 (ptr_add 4096 4) = 0
  ∧ CMD.memory (CMD.BUFFER_set 4096 0 10 world0).1.2 (ptr_add 4096 5) = 0xFFFF.
Proof.
  split.
  - apply (BUFFER_set_counts_bytes 4096 10 world0 4); lia.
  - apply (BUFFER_set_counts_bytes 4096 10 world0 5); lia.
Defined.





(** ** Extras on the oscilloscope command handlers *)

(** With no bit set the search loop leaves the trigger channel alone. *)
Lemma find_trigger_channel_none (n : nat) (i : Z) (w : CMD.World) :
  CMD.find_trigger_channel n i 0 w = (tt, w, []).
Proof. revert i. induction n as [|n IH]; intros i; [done|]. cbn. apply IH. Qed.

(** With a bit set among the low four, and at least four iterations, it
    stores the index of the lowest such bit. *)
Lemma find_trigger_channel_lowest (n : nat) (channelbits : Z) (w : CMD.World) :
  1 <= channelbits <= 15 →
  ∃ i, CMD.find_trigger_channel (4 + n) 0 channelbits w
       = (tt, CMD.SetTRIGGER_CHANNEL i w, [])
       ∧ 0 <= i < 4
       ∧ Z.testbit channelbits i = true
       ∧ ∀ j, 0 <= j < i → Z.testbit channelbits j = false.
Proof.
  intros Hb.
  assert (Hcases : ∃ k : nat, (k < 15)%nat ∧ channelbits = 1 + Z.of_nat k)
    by (exists (Z.to_nat (channelbits - 1)); lia).
  destruct Hcases as (k & Hk & ->).
  do 15 (destruct k as [|k];
    [ first
        [ exists 0; split_and!; [reflexivity|lia|lia|reflexivity|intros; lia]
        | exists 1; split_and!; [reflexivity|lia|lia|reflexivity|];
          intros j Hj; assert (j = 0) as -> by lia; reflexivity
        | exists 2; split_and!; [reflexivity|lia|lia|reflexivity|];
          intros j Hj; assert (j = 0 ∨ j = 1) as [-> | ->] by lia; reflexivity
        | exists 3; split_and!; [reflexivity|lia|lia|reflexivity|];
          intros j Hj; assert (j = 0 ∨ j = 1 ∨ j = 2) as [-> | [-> | ->]] by lia;
          reflexivity ]
    | ]).
  lia.
Qed.

(** X22.  [OSCILLOSCOPE_ConfigureTrigger] decodes its configuration byte:
    the trigger channel becomes the index of the lowest set bit of the low
    nibble and is left unchanged when the nibble is 0; the trigger prescaler
    is the high nibble; the trigger level is the word read next.  This holds
    for every [MAX_CHANNELS] from 4 to 15. *)
Theorem ConfigureTrigger_decodes (MAX_CHANNELS : Z) (h : CMD.Host)
    (w : CMD.World) :
  4 <= MAX_CHANNELS <= 15 →
  let c := CMD.rx_count w in
  let config := rx_byte h c in
  let r := CMD.OSCILLOSCOPE_ConfigureTrigger MAX_CHANNELS h w in
  r.1.1 = SUCCESS ∧ r.2 = []
  ∧ CMD.rx_count r.1.2 = (c + 2)%nat
  ∧ CMD.TRIGGER_PRESCALER r.1.2 = config / 16
  ∧ 0 <= CMD.TRIGGER_PRESCALER r.1.2 < 16
  ∧ CMD.TRIGGER_LEVEL r.1.2 = rx_word h (S c)
  ∧ (Z.land config 15 = 0 → CMD.TRIGGER_CHANNEL r.1.2 = CMD.TRIGGER_CHANNEL w)
  ∧ (Z.land config 15 ≠ 0 →
     0 <= CMD.TRIGGER_CHANNEL r.1.2 < 4
     ∧ Z.testbit config (CMD.TRIGGER_CHANNEL r.1.2) = true
     ∧ ∀ j, 0 <= j < CMD.TRIGGER_CHANNEL r.1.2 → Z.testbit config j = false).
Proof.
  intros Hmax c config. cbn zeta.
  pose proof (uint8_t_range (CMD.rx h c)) as Hc.
  fold (rx_byte h c) in Hc. fold config in Hc.
  assert (Hnib : 0 <= Z.land config 15 < 16).
  { change 15 with (Z.ones 4). rewrite Z.land_ones by lia.
    apply Z.mod_pos_bound. lia. }
  assert (Hbits : uint8_t (Z.land config 15) = Z.land config 15)
    by (apply Z.mod_small; lia).
  assert (Hlow : ∀ j, 0 <= j < 4 →
            Z.testbit (Z.land config 15) j = Z.testbit config j).
  { intros j Hj. change 15 with (Z.ones 4).
    rewrite Z.land_spec, Z.ones_spec_low by lia. apply andb_true_r. }
  assert (Hpre : 0 <= config / 16 < 16).
  { split; [apply Z.div_pos; lia|apply Z.div_lt_upper_bound; lia]. }
  unfold CMD.OSCILLOSCOPE_ConfigureTrigger. rewrite P_bind_run.
  cbn [CMD.UART1_Read fst snd]. fold c. fold (rx_byte h c). fold config.
  change 0x0F with 15. rewrite Hbits.
  replace (Z.to_nat MAX_CHANNELS) with (4 + (Z.to_nat MAX_CHANNELS - 4))%nat
    by lia.
  rewrite (Z.shiftr_div_pow2 config 4) by lia. change (2 ^ 4) with 16.
  destruct (Z.eq_dec (Z.land config 15) 0) as [Hz|Hnz].
  - rewrite Hz, P_bind_run, find_trigger_channel_none.
    rewrite !P_bind_run.
    cbn [CMD.update CMD.UART1_ReadInt mret CMD.P_ret fst snd app].
    cbn [CMD.rx_count CMD.TRIGGER_PRESCALER CMD.TRIGGER_LEVEL
           CMD.TRIGGER_CHANNEL CMD.SetTRIGGER_LEVEL CMD.SetTRIGGER_PRESCALER
           CMD.SetTRIGGER_CHANNEL CMD.set_rx_count].
    split_and!; try reflexivity; try lia; done.
  - destruct (find_trigger_channel_lowest (Z.to_nat MAX_CHANNELS - 4)
                (Z.land config 15)
                (CMD.set_rx_count (S c) w)) as (i & Hrun & Hi & Hset & Hmin);
      [lia|].
    rewrite P_bind_run, Hrun. rewrite !P_bind_run.
    cbn [CMD.update CMD.UART1_ReadInt mret CMD.P_ret fst snd app].
    cbn [CMD.rx_count CMD.TRIGGER_PRESCALER CMD.TRIGGER_LEVEL
           CMD.TRIGGER_CHANNEL CMD.SetTRIGGER_LEVEL CMD.SetTRIGGER_PRESCALER
           CMD.SetTRIGGER_CHANNEL CMD.set_rx_count].
    split_and!; try reflexivity; try lia; try done.
    intros _. split_and!; [lia|lia| |].
    + by rewrite <- Hlow by lia.
    + intros j Hj. rewrite <- Hlow by lia. by apply Hmin.
Qed.

Lemma ConfigureTrigger_decodes_witness :
  CMD.TRIGGER_CHANNEL
    (CMD.OSCILLOSCOPE_ConfigureTrigger 4
       {| CMD.rx := λ k, nth k [0x3C; 512] 0; CMD.BUFFER := 4096;
          CMD.SPI_configure_ok := true; CMD.SPI_exchange_result := SUCCESS |}
       world0).1.2 = 2
  ∧ CMD.TRIGGER_PRESCALER
      (CMD.OSCILLOSCOPE_ConfigureTrigger 4
         {| CMD.rx := λ k, nth k [0x3C; 512] 0; CMD.BUFFER := 4096;
            CMD.SPI_configure_ok := true; CMD.SPI_exchange_result := SUCCESS |}
         world0).1.2 = 0x3C / 16.
Proof.
  split; [reflexivity|].
  apply (ConfigureTrigger_decodes 4
           {| CMD.rx := λ k, nth k [0x3C; 512] 0; CMD.BUFFER := 4096;
              CMD.SPI_configure_ok := true;
              CMD.SPI_exchange_result := SUCCESS |} world0).
  lia.
Defined.

(** The loop of [BUFFER_FetchLong] while index and offsets stay within the
    16-bit range: nothing changes and the words go out in pairs. *)
Lemma BUFFER_FetchLong_loop (h : CMD.Host) (channel : Z) (w : CMD.World)
    (n : nat) :
  ∀ i : Z,
    0 <= channel → 0 <= i →
    i + Z.of_nat n + (2 * channel + 1) * 2500 <= BUFFER_SIZE →
    CMD.loop n i (λ i,
      lo ← CMD.load (ptr_add (CMD.BUFFER h)
             (unsigned_int (i + int (2 * channel * (BUFFER_SIZE / 4)))));
      CMD.emit (CMD.UART1_WriteInt lo);;
      hi ← CMD.load (ptr_add (CMD.BUFFER h)
             (unsigned_int (i + int ((2 * channel + 1) * (BUFFER_SIZE / 4)))));
      CMD.emit (CMD.UART1_WriteInt hi)) w
    = (tt, w,
       seqZ i (Z.of_nat n) ≫= λ k,
         [CMD.UART1_WriteInt (buffer_word h w (k + 5000 * channel));
          CMD.UART1_WriteInt (buffer_word h w (k + 5000 * channel + 2500))]).
Proof.
  induction n as [|n IH]; intros i Hch Hi Hfit; [done|].
  unfold BUFFER_SIZE in *. change (10000 / 4) with 2500.
  cbn [CMD.loop]. rewrite !P_bind_run. cbn [CMD.load CMD.emit fst snd].
  change (10000 / 4) with 2500 in IH.
  rewrite IH by lia. cbn [fst snd].
  rewrite (seqZ_cons i) by lia.
  replace (Z.pred (Z.of_nat (S n))) with (Z.of_nat n) by lia.
  unfold int, int16_t, unsigned_int, uint16_t, buffer_word.
  rewrite (Z.mod_small (2 * channel * 2500 + 2 ^ 15)) by lia.
  rewrite (Z.mod_small ((2 * channel + 1) * 2500 + 2 ^ 15)) by lia.
  rewrite !Z.mod_small by lia.
  replace (i + (2 * channel * 2500 + 2 ^ 15 - 2 ^ 15))
    with (i + 5000 * channel) by lia.
  replace (i + ((2 * channel + 1) * 2500 + 2 ^ 15 - 2 ^ 15))
    with (i + 5000 * channel + 2500) by lia.
  reflexivity.
Qed.

(** X23.  [BUFFER_FetchLong] consumes a word and a byte, changes nothing
    else, and between the two LED calls sends [counter] pairs: pair [k] is
    word [k] of the half-buffer selected by [channel] followed by the word
    a quarter of the buffer (2500 words) further on.  This is shown for
    requests whose last read lies inside the buffer. *)
Theorem BUFFER_FetchLong_pairs (h : CMD.Host) (w : CMD.World) :
  let c := CMD.rx_count w in
  let counter := rx_word h c in
  let channel := rx_byte h (S c) in
  counter + (2 * channel + 1) * 2500 <= BUFFER_SIZE →
  CMD.BUFFER_FetchLong h w =
    (SUCCESS, CMD.set_rx_count (S (S c)) w,
     CMD.LED_SetLow ::
       (seqZ 0 counter ≫= λ k,
          [CMD.UART1_WriteInt (buffer_word h w (k + 5000 * channel));
           CMD.UART1_WriteInt (buffer_word h w (k + 5000 * channel + 2500))])
       ++ [CMD.LED_SetHigh])
  ∧ ∀ k, 0 <= k < counter →
      0 <= k + 5000 * channel
      ∧ k + 5000 * channel + 2500 < BUFFER_SIZE.
Proof.
  intros c counter channel Hfit.
  pose proof (uint16_t_range (CMD.rx h c)) as Hcounter.
  pose proof (uint8_t_range (CMD.rx h (S c))) as Hchannel.
  fold (rx_word h c) in Hcounter. fold counter in Hcounter.
  fold (rx_byte h (S c)) in Hchannel. fold channel in Hchannel.
  split; [|intros k Hk; lia].
  unfold CMD.BUFFER_FetchLong. rewrite !P_bind_run.
  cbn [CMD.UART1_ReadInt CMD.UART1_Read CMD.emit mret CMD.P_ret fst snd
         CMD.rx_count CMD.set_rx_count].
  fold c. fold (rx_word h c). fold counter.
  fold (rx_byte h (S c)). fold channel.
  rewrite (BUFFER_FetchLong_loop h channel _ (Z.to_nat counter) 0) by lia.
  cbn [fst snd app]. rewrite seqZ_of_to_nat.
  reflexivity.
Qed.

Lemma BUFFER_FetchLong_pairs_witness :
  io_words
    (CMD.BUFFER_FetchLong
       {| CMD.rx := λ k, nth k [3; 1] 0; CMD.BUFFER := 4096;
          CMD.SPI_configure_ok := true; CMD.SPI_exchange_result := SUCCESS |}
       {| CMD.memory := λ a, a; CMD.rx_count := 0; CMD.TRIGGER_CHANNEL := 0;
          CMD.TRIGGER_PRESCALER := 0; CMD.TRIGGER_LEVEL := 0 |}).2
  = [14096; 19096; 14098; 19098; 14100; 19100].
Proof.
  destruct (BUFFER_FetchLong_pairs
       {| CMD.rx := λ k, nth k [3; 1] 0; CMD.BUFFER := 4096;
          CMD.SPI_configure_ok := true; CMD.SPI_exchange_result := SUCCESS |}
       {| CMD.memory := λ a, a; CMD.rx_count := 0; CMD.TRIGGER_CHANNEL := 0;
          CMD.TRIGGER_PRESCALER := 0; CMD.TRIGGER_LEVEL := 0 |})
    as [-> _]; [vm_compute; discriminate|].
  reflexivity.
Defined.

(** The [switch] of [OSCILLOSCOPE_SetPGAGain] on a selector other than 1
    and 2. *)
Lemma SetPGAGain_default (h : CMD.Host) (selector : Z) (w : CMD.World) :
  selector ≠ 1 → selector ≠ 2 →
  match selector with
  | 1 => CMD.SetPGAGain_channel h CMD.SPI_CH1
  | 2 => CMD.SetPGAGain_channel h CMD.SPI_CH2
  | _ => CMD.UART1_Read h;; mret FAILED
  end w = (FAILED, CMD.set_rx_count (S (CMD.rx_count w)) w, []).
Proof.
  intros H1 H2.
  destruct selector as [|[[]|[]|]|]; try done.
Qed.

(** With a gain below [GAIN_INVALID] the command word is [0x4000 + gain]. *)
Lemma PGA_command (gain : Z) :
  0 <= gain < CMD.GAIN_INVALID → uint16_t (Z.lor 0x4000 gain) = 0x4000 + gain.
Proof.
  unfold CMD.GAIN_INVALID. intros Hgain.
  assert (Hk : ∃ k : nat, (k < 8)%nat ∧ gain = Z.of_nat k)
    by (exists (Z.to_nat gain); lia).
  destruct Hk as (k & Hk & ->).
  do 8 (destruct k as [|k]; [reflexivity|]). lia.
Qed.

Lemma SetPGAGain_channel_run (h : CMD.Host) (channel : CMD.SPI_CS)
    (w : CMD.World) :
  let gain := rx_byte h (CMD.rx_count w) in
  CMD.SetPGAGain_channel h channel w =
    (if (gain >=? CMD.GAIN_INVALID) || negb (CMD.SPI_configure_ok h)
     then FAILED else CMD.SPI_exchange_result h,
     CMD.set_rx_count (S (CMD.rx_count w)) w,
     if gain >=? CMD.GAIN_INVALID then []
     else if CMD.SPI_configure_ok h
          then [CMD.SPI_configure; CMD.LED_SetHigh;
                CMD.SPI_exchange_int channel (0x4000 + gain)]
          else [CMD.SPI_configure]).
Proof.
  intros gain.
  pose proof (uint8_t_range (CMD.rx h (CMD.rx_count w))) as Hgain.
  fold (rx_byte h (CMD.rx_count w)) in Hgain. fold gain in Hgain.
  unfold CMD.SetPGAGain_channel. rewrite P_bind_run.
  cbn [CMD.UART1_Read fst snd]. fold (rx_byte h (CMD.rx_count w)). fold gain.
  destruct (Z.geb_spec gain CMD.GAIN_INVALID) as [Hge|Hlt]; [done|].
  cbn zeta. rewrite PGA_command by lia.
  rewrite P_bind_run. cbn [CMD.emit fst snd].
  destruct (CMD.SPI_configure_ok h); [|done].
  rewrite !P_bind_run. reflexivity.
Qed.

(** X24.  [OSCILLOSCOPE_SetPGAGain] reads exactly two bytes whatever they
    are and changes nothing else.  It drives the SPI bus only for a
    selector of 1 or 2 and a gain below [GAIN_INVALID]: the command word is
    then [0x4000 + gain] on the chip select the selector names, sent after
    a successful [SPI_configure], and the response is the one of the
    exchange.  In every other case it answers [FAILED] without an SPI
    exchange. *)
Theorem SetPGAGain_run (h : CMD.Host) (w : CMD.World) :
  let c := CMD.rx_count w in
  let selector := rx_byte h c in
  let gain := rx_byte h (S c) in
  let r := CMD.OSCILLOSCOPE_SetPGAGain h w in
  r.1.2 = CMD.set_rx_count (S (S c)) w
  ∧ (((selector = 1 ∨ selector = 2) ∧ gain < CMD.GAIN_INVALID) →
     if CMD.SPI_configure_ok h
     then r.1.1 = CMD.SPI_exchange_result h
          ∧ r.2 = [CMD.SPI_configure; CMD.LED_SetHigh;
                   CMD.SPI_exchange_int
                     (if selector =? 1 then CMD.SPI_CH1 else CMD.SPI_CH2)
                     (0x4000 + gain)]
     else r.1.1 = FAILED ∧ r.2 = [CMD.SPI_configure])
  ∧ (¬ ((selector = 1 ∨ selector = 2) ∧ gain < CMD.GAIN_INVALID) →
     r.1.1 = FAILED ∧ r.2 = []).
Proof.
  intros c selector gain. cbn zeta.
  unfold CMD.OSCILLOSCOPE_SetPGAGain. rewrite P_bind_run.
  cbn [CMD.UART1_Read fst snd]. fold c. fold (rx_byte h c). fold selector.
  set (w1 := CMD.set_rx_count (S c) w).
  assert (Hsel : selector = 1 ∨ selector = 2 ∨ (selector ≠ 1 ∧ selector ≠ 2))
    by lia.
  destruct Hsel as [-> | [-> | [H1 H2]]].
  1, 2: rewrite SetPGAGain_channel_run; cbn zeta;
    change (rx_byte h (CMD.rx_count w1)) with gain; cbn [fst snd app];
    (split; [reflexivity|]);
    destruct (Z.geb_spec gain CMD.GAIN_INVALID) as [Hge|Hlt];
    destruct (CMD.SPI_configure_ok h); cbn [orb negb];
    (split; [intros [_ ?]; first [lia | done] | intros Hn; first [done | tauto]]).
  rewrite SetPGAGain_default by done. cbn [fst snd app].
  split; [reflexivity|]. split; [intros [[?|?] _]; done | done].
Qed.

(** ** Extras on the host link *)

(** X25.  [HOST_read] never hands on a receive error of the UART driver:
    time-out, parity and framing errors become [E_HOST_READ], an overrun
    becomes [E_HOST_RX_OVERRUN], every other status is returned as it is;
    mapping a status twice is the same as mapping it once. *)
Theorem HOST_read_hides_UART_errors (status : CMD.Status) :
  (CMD.HOST_read status ∉
     [CMD.E_UART_RX_TIMEOUT; CMD.E_UART_RX_PARITY; CMD.E_UART_RX_FRAMING;
      CMD.E_UART_RX_OVERRUN])
  ∧ (CMD.HOST_read status = status ↔
     (status ∉ [CMD.E_UART_RX_TIMEOUT; CMD.E_UART_RX_PARITY;
                CMD.E_UART_RX_FRAMING; CMD.E_UART_RX_OVERRUN]))
  ∧ CMD.HOST_read (CMD.HOST_read status) = CMD.HOST_read status.
Proof.
  split_and!.
  - intros Hin. apply list_elem_of_In in Hin. cbn in Hin.
    destruct status; cbn in Hin; intuition discriminate.
  - split.
    + intros Heq Hin. apply list_elem_of_In in Hin. cbn in Hin.
      destruct status; cbn in Heq; intuition discriminate.
    + intros Hnin. destruct status; try reflexivity;
        exfalso; apply Hnin; apply list_elem_of_In; cbn; tauto.
  - by destruct status.
Qed.
